(** * find-updates.py: change detection and fan-out of new job entries

    A shallow embedding of [src/find-updates.py].  The script reads two
    YAML snapshots, finds the entries of the updated one whose uniqueness
    value is new, announces each of them (standard output, Twitter,
    Mastodon, Slack) and writes three outputs for the calling workflow.

    Python values are embedded as an inductive type, dictionaries as
    association lists in insertion order, the set of seen values as a
    [gset], and the effects of [main] (printing, file writes, network
    calls, [sys.exit], uncaught exceptions) as a trace-and-result monad. *)

From stdpp Require Import base gmap sets list strings pretty.
From Stdlib Require Import ZArith Ascii String.

Local Open Scope string_scope.
Local Open Scope Z_scope.
Local Open Scope list_scope.

(** ** Python data *)

(** The values a YAML document loads to.  A [str] is kept as the bytes of
    its UTF-8 text.  Floating point scalars are outside the model. *)
#[warnings="-register-all"]
Inductive value :=
| VNone
| VBool (b : bool)
| VInt (z : Z)
| VStr (s : string)
| VDate (year month day : Z)
| VList (items : list value)
| VDict (fields : list (string * value)).

(** A [dict] with [str] keys, in insertion order; every key occurs once. *)
Definition dict (V : Type) : Type := list (string * V).
Definition record : Type := dict value.
Definition snapshot : Type := list record.

(** [d.get(k)], also deciding [k in d]. *)
Fixpoint dict_get {V : Type} (k : string) (d : dict V) : option V :=
  match d with
  | [] => None
  | (k', v) :: d' => if String.eqb k k' then Some v else dict_get k d'
  end.

(** [d[k] = v]: overwrite in place, or append a new key. *)
Fixpoint dict_set {V : Type} (k : string) (v : V) (d : dict V) : dict V :=
  match d with
  | [] => [(k, v)]
  | (k', v') :: d' =>
      if String.eqb k k' then (k', v) :: d' else (k', v') :: dict_set k v d'
  end.

Definition dict_keys {V : Type} (d : dict V) : list string := map fst d.

(** Truth value of an object, as [if x:] and [not x] take it. *)
Definition truthy (v : value) : bool :=
  match v with
  | VNone => false
  | VBool b => b
  | VInt z => negb (z =? 0)
  | VStr s => negb (String.eqb s "")
  | VDate _ _ _ => true
  | VList l => match l with [] => false | _ => true end
  | VDict d => match d with [] => false | _ => true end
  end.

(** What a hashable value is in a [set]: values that compare equal share
    one key ([True == 1], [False == 0]). *)
Inductive hkey :=
| KNone
| KInt (z : Z)
| KStr (s : string)
| KDate (year month day : Z).

Global Instance hkey_eq_dec : EqDecision hkey.
Proof. solve_decision. Defined.

Definition hkey_code (k : hkey) : unit + Z + string + Z * Z * Z :=
  match k with
  | KNone => inl (inl (inl tt))
  | KInt z => inl (inl (inr z))
  | KStr s => inl (inr s)
  | KDate y m d => inr (y, m, d)
  end.

Definition hkey_decode (c : unit + Z + string + Z * Z * Z) : hkey :=
  match c with
  | inl (inl (inl _)) => KNone
  | inl (inl (inr z)) => KInt z
  | inl (inr s) => KStr s
  | inr (y, m, d) => KDate y m d
  end.

Global Instance hkey_countable : Countable hkey.
Proof.
  apply (inj_countable' hkey_code hkey_decode).
  intros []; reflexivity.
Defined.

(** [hash(v)] together with [==]: [None] stands for
    [TypeError: unhashable type]. *)
Definition hash_key (v : value) : option hkey :=
  match v with
  | VNone => Some KNone
  | VBool b => Some (KInt (if b then 1 else 0))
  | VInt z => Some (KInt z)
  | VStr s => Some (KStr s)
  | VDate y m d => Some (KDate y m d)
  | VList _ => None
  | VDict _ => None
  end.

(** [a == b] on hashable values. *)
Definition py_eq (a b : value) : bool :=
  match hash_key a, hash_key b with
  | Some ka, Some kb => bool_decide (ka = kb)
  | _, _ => false
  end.

(** ** Text *)

Definition NL : string := String (ascii_of_nat 10) "".

(** [len(s)]: the number of code points, that is of bytes that are not
    UTF-8 continuation bytes. *)
Definition is_continuation (c : ascii) : bool :=
  let n := nat_of_ascii c in (128 <=? n)%nat && (n <? 192)%nat.

Fixpoint py_len (s : string) : nat :=
  match s with
  | EmptyString => 0%nat
  | String c s' => if is_continuation c then py_len s' else S (py_len s')
  end.

(** [s.split(",")]: the pieces between the commas, empty ones included. *)
Fixpoint split_commas (s : string) : list string :=
  match s with
  | EmptyString => [""]
  | String c s' =>
      if Ascii.eqb c "," then "" :: split_commas s'
      else match split_commas s' with
           | [] => [String c ""]
           | piece :: pieces => String c piece :: pieces
           end
  end.

(** The library routines on text that the script calls and whose tables
    are not part of it: [str.capitalize], the string encoder of the
    [json] module ([ensure_ascii] escapes) and the [str()] of a list of
    entries as ["%s" % new] prints it. *)
Record runtime := {
  capitalize : string -> string;
  encode_basestring_ascii : string -> string;
  str_of_entries : snapshot -> string
}.

(** ** Effects of a run *)

Inductive exn :=
| TypeError
| AttributeError
| LibraryError (what : string).

Record response := { status_code : Z; reason : string }.

(** What a run does to the outside, in the order it does it.  Network
    calls carry the position of the entry they are made for and the
    answer they got. *)
Inductive event :=
| EvHelp
| EvPrint (line : string)
| EvRead (filename : string)
| EvAppend (env_var path text : string)
| EvTweet (i : nat) (text : string) (raised : option string)
| EvToot (i : nat) (status : string) (raised : option string)
| EvPost (i : nat) (url body : string) (answer : exn + response).

(** How a run can stop before the end of [main]. *)
Inductive stop :=
| SysExit (code : Z)
| SysExitMessage (message : string)
| Uncaught (e : exn).

Definition Run (A : Type) : Type := list event * (stop + A).

Definition ret {A : Type} (a : A) : Run A := ([], inr a).

Definition bind {A B : Type} (m : Run A) (k : A -> Run B) : Run B :=
  match m with
  | (t, inl s) => (t, inl s)
  | (t, inr a) => let '(t', r) := k a in (t ++ t', r)
  end.

Definition emit (e : event) : Run unit := ([e], inr tt).
Definition halt {A : Type} (s : stop) : Run A := ([], inl s).
Definition raise {A : Type} (e : exn) : Run A := halt (Uncaught e).
Definition sys_exit {A : Type} (message : string) : Run A :=
  halt (SysExitMessage message).

Declare Scope run_scope.
Delimit Scope run_scope with run.
Notation "x <- c1 ;; c2" := (bind c1 (fun x => c2))
  (at level 100, c1 at next level, right associativity) : run_scope.
Notation "c1 ;; c2" := (bind c1 (fun _ => c2))
  (at level 100, right associativity) : run_scope.

(** The status the process ends with: [sys.exit] with a message and an
    uncaught exception both give 1. *)
Definition exit_status {A : Type} (r : stop + A) : Z :=
  match r with
  | inr _ => 0
  | inl (SysExit code) => code
  | inl (SysExitMessage _) => 1
  | inl (Uncaught _) => 1
  end.

Definition trace {A : Type} (m : Run A) : list event := fst m.
Definition result {A : Type} (m : Run A) : stop + A := snd m.

Definition lift {A : Type} (r : exn + A) : Run A :=
  match r with
  | inl e => raise e
  | inr a => ret a
  end.

(** ** The command line and the world around the process *)

(** The namespace [parse_known_args] returns for the [update] command.
    Options given no value and having no default are [None]. *)
Record args := {
  original : option string;
  deploy : bool;
  deploy_twitter : bool;
  deploy_mastodon : bool;
  test : bool;
  updated : option string;
  keys : option string;
  unique : string
}.

Record twitter_client := {
  consumer_key : string;
  consumer_secret : string;
  access_token : string;
  access_token_secret : string
}.

Record mastodon_client := {
  mastodon_access_token : string;
  api_base_url : string
}.

(** Everything a run reads from outside: the process environment, the
    file system, the random generator and the answers of the three
    services.  The draw and the answers are given per position of the
    entry in the list that is announced. *)
Record world := {
  os_environ : gmap string string;
  os_path_exists : string -> bool;
  yaml_load : string -> exn + snapshot;
  random_choice : nat -> nat;
  create_tweet : nat -> string -> option string;
  mastodon_toot : nat -> string -> option string;
  requests_post : nat -> string -> string -> exn + response
}.

Definition icons : list string :=
  [ "⭐️";
    "😍️";
    "❤️";
    "👀️";
    "✨️";
    "🤖️";
    "💼️";
    "🤩️";
    "😸️";
    "😻️";
    "👉️";
    "🕶️";
    "🔥️";
    "💻️" ].

(** [not value] for the result of [os.environ.get]. *)
Definition unset (value : option string) : bool :=
  match value with
  | None => true
  | Some s => String.eqb s ""
  end.

(** ** The script *)

Section Script.

Context (py : runtime) (w : world).

(** [json.dumps(v)]; [None] stands for the [TypeError] raised on an
    object that is not JSON serializable, at any depth.  The limit that
    the interpreter puts on the digits of an integer it turns into text
    is outside the model. *)
Fixpoint json_dumps (v : value) : option string :=
  match v with
  | VNone => Some "null"
  | VBool b => Some (if b then "true" else "false")
  | VInt z => Some (pretty z)
  | VStr s => Some (encode_basestring_ascii py s)
  | VDate _ _ _ => None
  | VList l =>
      parts ← (fix each (l : list value) : option (list string) :=
                  match l with
                  | [] => Some []
                  | x :: l' => s ← json_dumps x; ss ← each l'; Some (s :: ss)
                  end) l;
      Some ("[" +:+ String.concat ", " parts +:+ "]")
  | VDict d =>
      parts ← (fix each (d : list (string * value)) : option (list string) :=
                  match d with
                  | [] => Some []
                  | (k, x) :: d' =>
                      s ← json_dumps x; ss ← each d';
                      Some ((encode_basestring_ascii py k +:+ ": " +:+ s) :: ss)
                  end) d;
      Some ("{" +:+ String.concat ", " parts +:+ "}")
  end.

(** [json.dumps] of a list of strings ([keys]). *)
Definition json_of_strings (l : list string) : string :=
  "[" +:+ String.concat ", " (map (encode_basestring_ascii py) l) +:+ "]".

(** [json.dumps] of a dictionary of strings (one element of [matrix]). *)
Definition json_of_dict (d : dict string) : string :=
  "{" +:+ String.concat ", "
            (map (fun '(k, s) => encode_basestring_ascii py k +:+ ": "
                                 +:+ encode_basestring_ascii py s) d)
      +:+ "}".

(** [json.dumps(matrix)]. *)
Definition json_of_matrix (matrix : list (dict string)) : string :=
  "[" +:+ String.concat ", " (map json_of_dict matrix) +:+ "]".

(** [set_env_and_output]: one line appended to the file named by
    [GITHUB_ENV], then to the one named by [GITHUB_OUTPUT].  [open(None)]
    raises when the variable is not set. *)
Definition append_to (env_var name value : string) : Run unit :=
  (emit (EvPrint ("Writing " +:+ name +:+ "=" +:+ value +:+ " to " +:+ env_var)) ;;
   match os_environ w !! env_var with
   | None => raise TypeError
   | Some path => emit (EvAppend env_var path (name +:+ "=" +:+ value +:+ NL))
   end)%run.

Definition set_env_and_output (name value : string) : Run unit :=
  (append_to "GITHUB_ENV" name value ;;
   append_to "GITHUB_OUTPUT" name value)%run.

(** The loop shared by [get_twitter_client] and [get_mastodon_client]:
    the values of the variables, or [sys.exit] at the first one that is
    missing or empty. *)
Fixpoint require_envars (service : string) (envars : list string)
  : Run (list string) :=
  match envars with
  | [] => ret []
  | envar :: rest =>
      let value := os_environ w !! envar in
      if unset value
      then sys_exit (envar +:+ " is not set, and required when " +:+ service
                     +:+ " deploy is true!")
      else (values <- require_envars service rest ;;
            ret (default "" value :: values))%run
  end.

Definition twitter_envars : list string :=
  ["TWITTER_API_KEY"; "TWITTER_API_SECRET";
   "TWITTER_CONSUMER_KEY"; "TWITTER_CONSUMER_SECRET"].

Definition mastodon_envars : list string :=
  ["MASTODON_ACCESS_TOKEN"; "MASTODON_API_BASE_URL"].

Definition get_twitter_client : Run twitter_client :=
  (values <- require_envars "twitter" twitter_envars ;;
   ret {| consumer_key := nth 2 values "";
          consumer_secret := nth 3 values "";
          access_token := nth 0 values "";
          access_token_secret := nth 1 values "" |})%run.

Definition get_mastodon_client : Run mastodon_client :=
  (values <- require_envars "mastodon" mastodon_envars ;;
   ret {| mastodon_access_token := nth 0 values "";
          api_base_url := nth 1 values "" |})%run.

(** [prepare_post]: a line per requested key that the entry has.
    Concatenating anything but a [str] raises [TypeError]. *)
Fixpoint prepare_post_from (post : string) (entry : record)
    (keys : list string) : exn + string :=
  match keys with
  | [] => inr post
  | key :: keys' =>
      match dict_get key entry with
      | None => prepare_post_from post entry keys'
      | Some (VStr s) =>
          if String.eqb key "url"
          then prepare_post_from (post +:+ s +:+ NL) entry keys'
          else prepare_post_from
                 (post +:+ capitalize py key +:+ ": " +:+ s +:+ NL) entry keys'
      | Some _ => inl TypeError
      end
  end.

Definition prepare_post (entry : record) (keys : list string) : exn + string :=
  prepare_post_from "" entry keys.

(** [[x for x in args.keys.split(",") if x]] *)
Definition parse_keys (keys : string) : list string :=
  filter (fun x => x ≠ "") (split_commas keys).

(** Lines 204 to 207: the set [previous] of the uniqueness values of the
    original snapshot.  [set.add] raises on an unhashable value. *)
Fixpoint seen_values (unique : string) (original : snapshot)
    (previous : gset hkey) : exn + gset hkey :=
  match original with
  | [] => inr previous
  | item :: rest =>
      match dict_get unique item with
      | None => seen_values unique rest previous
      | Some v =>
          match hash_key v with
          | None => inl TypeError
          | Some k => seen_values unique rest ({[k]} ∪ previous)
          end
      end
  end.

(** Lines 210 to 218: the lists [new] and [entries]. *)
Fixpoint classify (unique : string) (previous : gset hkey)
    (updated : snapshot) (new entries : list record)
  : exn + (list record * list record) :=
  match updated with
  | [] => inr (new, entries)
  | item :: rest =>
      match dict_get unique item with
      | None => classify unique previous rest new entries
      | Some v =>
          match hash_key v with
          | None => inl TypeError
          | Some k =>
              if bool_decide (k ∉ previous)
              then classify unique previous rest (new ++ [item]) entries
              else if truthy v
                   then classify unique previous rest new (entries ++ [item])
                   else classify unique previous rest new entries
          end
      end
  end.

(** Lines 204 to 222: the list the script goes on with, called the Delta:
    [entries] in a test run, [new] otherwise. *)
Definition find_delta (unique : string) (is_test : bool)
    (original updated : snapshot) : exn + list record :=
  match seen_values unique original ∅ with
  | inl e => inl e
  | inr previous =>
      match classify unique previous updated [] [] with
      | inl e => inl e
      | inr (new, entries) => inr (if is_test then entries else new)
      end
  end.

(** Lines 266 to 271: the JSON text of every value that has one. *)
Definition filter_serializable (entry : record) : dict string :=
  fold_left (fun filtered '(k, v) =>
               match json_dumps v with
               | Some s => dict_set k s filtered
               | None => filtered
               end) entry [].

(** [json.dumps(data)] for the [data] of line 276,
    [{"text": message, "unfurl_links": True}]. *)
Definition slack_payload (message : string) : string :=
  "{" +:+ encode_basestring_ascii py "text" +:+ ": "
  +:+ encode_basestring_ascii py message +:+ ", "
  +:+ encode_basestring_ascii py "unfurl_links" +:+ ": true}".

(** Lines 256 to 302: the body of the loop for the entry at position [i],
    with the matrix so far; it gives the matrix with the entry added. *)
Definition announce (a : args) (client : option twitter_client)
    (mastodon : option mastodon_client) (webhook : option string)
    (fields : list string) (i : nat) (entry : record)
    (matrix : list (dict string)) : Run (list (dict string)) :=
  (post <- lift (prepare_post entry fields) ;;
   let choice := nth (random_choice w i mod List.length icons)%nat icons "" in
   let message := "New Job! " +:+ choice +:+ NL +:+ post in
   emit (EvPrint message) ;;
   let matrix := matrix ++ [filter_serializable entry] in
   let data := slack_payload message in
   (if deploy_twitter a && bool_decide (is_Some client)
    then
      let message := "New #RSEng Job! " +:+ choice +:+ NL +:+ post in
      emit (EvPrint message) ;;
      let raised := create_tweet w i message in
      emit (EvTweet i message raised) ;;
      match raised with
      | Some e =>
          emit (EvPrint ("Issue posting tweet: " +:+ e +:+ ", and length is "
                         +:+ pretty (py_len message)))
      | None => ret tt
      end
    else ret tt) ;;
   (if deploy_mastodon a && bool_decide (is_Some mastodon)
    then
      let message := "New #RSEng Job! " +:+ choice +:+ ": " +:+ post in
      let raised := mastodon_toot w i message in
      emit (EvToot i message raised) ;;
      match raised with
      | Some e => raise (LibraryError e)
      | None => ret tt
      end
    else ret tt) ;;
   if negb (deploy a) || test a
   then ret matrix
   else
     match webhook with
     | None => raise (LibraryError "requests.exceptions.MissingSchema")
     | Some url =>
         let answer := requests_post w i url data in
         emit (EvPost i url data answer) ;;
         match answer with
         | inl e => raise e
         | inr r =>
             if bool_decide (status_code r ∈ [200; 201])
             then ret matrix
             else
               emit (EvPrint ("<Response [" +:+ pretty (status_code r) +:+ "]>")) ;;
               sys_exit ("Issue with making POST request: " +:+ reason r
                         +:+ ", " +:+ pretty (status_code r))
         end
     end)%run.

(** The loop [for entry in new]. *)
Fixpoint announce_all (a : args) (client : option twitter_client)
    (mastodon : option mastodon_client) (webhook : option string)
    (fields : list string) (i : nat) (new : list record)
    (matrix : list (dict string)) : Run (list (dict string)) :=
  match new with
  | [] => ret matrix
  | entry :: rest =>
      (matrix' <- announce a client mastodon webhook fields i entry matrix ;;
       announce_all a client mastodon webhook fields (S i) rest matrix')%run
  end.

(** [os.path.exists(filename)] of lines 184 to 186; [None] is not a path. *)
Definition check_exists (filename : option string) : Run string :=
  match filename with
  | None => raise TypeError
  | Some f =>
      if os_path_exists w f then ret f
      else sys_exit (f +:+ " does not exist.")
  end.

Definition read_yaml (filename : string) : Run snapshot :=
  (emit (EvRead filename) ;; lift (yaml_load w filename))%run.

(** Lines 231 to 308: what follows the choice of the Delta. *)
Definition deliver (a : args) (client : option twitter_client)
    (mastodon : option mastodon_client) (fields : list string)
    (new : list record) : Run unit :=
  (let webhook := os_environ w !! "SLACK_WEBHOOK" in
   (if unset webhook && deploy a
    then sys_exit "Cannot find SLACK_WEBHOOK in environment."
    else ret tt) ;;
   matrix <- announce_all a client mastodon webhook fields 0 new [] ;;
   set_env_and_output "fields" (json_of_strings fields) ;;
   set_env_and_output "matrix" (json_of_matrix matrix) ;;
   set_env_and_output "empty_matrix" "false" ;;
   emit (EvPrint ("matrix: " +:+ json_of_matrix matrix)) ;;
   emit (EvPrint ("group: " +:+ str_of_entries py new)))%run.

(** Lines 223 to 228. *)
Definition no_new_jobs : Run unit :=
  (emit (EvPrint "No new jobs found.") ;;
   set_env_and_output "fields" "[]" ;;
   set_env_and_output "matrix" "[]" ;;
   set_env_and_output "empty_matrix" "true" ;;
   halt (SysExit 0))%run.

(** [main].  Without a command the help is printed and the run ends with
    status 0; the options below exist for the [update] command only. *)
Definition main (argv : option args) : Run unit :=
  match argv with
  | None => (emit EvHelp ;; halt (SysExit 0))%run
  | Some a =>
      (original_file <- check_exists (original a) ;;
       updated_file <- check_exists (updated a) ;;
       client <- (if deploy_twitter a
                  then c <- get_twitter_client ;; ret (Some c)
                  else ret None) ;;
       mastodon <- (if deploy_mastodon a
                    then c <- get_mastodon_client ;; ret (Some c)
                    else ret None) ;;
       original_jobs <- read_yaml original_file ;;
       updated_jobs <- read_yaml updated_file ;;
       fields <- match keys a with
                 | None => raise AttributeError
                 | Some text => ret (parse_keys text)
                 end ;;
       new <- lift (find_delta (unique a) (test a) original_jobs updated_jobs) ;;
       if test a then deliver a client mastodon fields new
       else match new with
            | [] => no_new_jobs
            | _ => deliver a client mastodon fields new
            end)%run
  end.

End Script.

(** ** A runtime to run the script on sample inputs *)

Module Sample.

Definition hex_digit (n : N) : ascii :=
  match n with
  | 0 => "0" | 1 => "1" | 2 => "2" | 3 => "3" | 4 => "4" | 5 => "5"
  | 6 => "6" | 7 => "7" | 8 => "8" | 9 => "9" | 10 => "a" | 11 => "b"
  | 12 => "c" | 13 => "d" | 14 => "e" | _ => "f"
  end%N%char.

(** ['\\u{0:04x}'.format(n)] *)
Definition u_escape (n : N) : string :=
  "\u" +:+ String (hex_digit (N.land (N.shiftr n 12) 15))
            (String (hex_digit (N.land (N.shiftr n 8) 15))
               (String (hex_digit (N.land (N.shiftr n 4) 15))
                  (String (hex_digit (N.land n 15)) ""))).

(** The replacement [json.encoder] makes for one code point. *)
Definition escape_code_point (n : N) : string :=
  if (n =? 34)%N then String "\" (String (ascii_of_nat 34) "")
  else if (n =? 92)%N then "\\"
  else if (n =? 8)%N then "\b"
  else if (n =? 12)%N then "\f"
  else if (n =? 10)%N then "\n"
  else if (n =? 13)%N then "\r"
  else if (n =? 9)%N then "\t"
  else if ((32 <=? n) && (n <=? 126))%N then String (ascii_of_N n) ""
  else if (n <? 65536)%N then u_escape n
  else
    let m := (n - 65536)%N in
    u_escape (N.lor 55296 (N.land (N.shiftr m 10) 1023))
    +:+ u_escape (N.lor 56320 (N.land m 1023)).

(** Escapes the code points of UTF-8 text: [pending] continuation bytes
    are still to be added to the code point [acc]. *)
Fixpoint escape_utf8 (pending : nat) (acc : N) (s : string) : string :=
  match s with
  | EmptyString => ""
  | String c s' =>
      let b := N_of_ascii c in
      match pending with
      | O =>
          if (b <? 128)%N then escape_code_point b +:+ escape_utf8 0 0 s'
          else if (b <? 224)%N then escape_utf8 1 (N.land b 31) s'
          else if (b <? 240)%N then escape_utf8 2 (N.land b 15) s'
          else escape_utf8 3 (N.land b 7) s'
      | S O =>
          escape_code_point (N.lor (N.shiftl acc 6) (N.land b 63))
          +:+ escape_utf8 0 0 s'
      | S p => escape_utf8 p (N.lor (N.shiftl acc 6) (N.land b 63)) s'
      end
  end.

(** [json.encoder.py_encode_basestring_ascii] on well-formed UTF-8. *)
Definition encode_ascii (s : string) : string :=
  String (ascii_of_nat 34) (escape_utf8 0 0 s +:+ String (ascii_of_nat 34) "").

Definition upper (c : ascii) : ascii :=
  let n := nat_of_ascii c in
  if (97 <=? n)%nat && (n <=? 122)%nat then ascii_of_nat (n - 32) else c.

Definition lower (c : ascii) : ascii :=
  let n := nat_of_ascii c in
  if (65 <=? n)%nat && (n <=? 90)%nat then ascii_of_nat (n + 32) else c.

Fixpoint map_string (f : ascii -> ascii) (s : string) : string :=
  match s with
  | EmptyString => ""
  | String c s' => String (f c) (map_string f s')
  end.

(** [str.capitalize] on ASCII letters. *)
Definition capitalize_ascii (s : string) : string :=
  match s with
  | EmptyString => ""
  | String c s' => String (upper c) (map_string lower s')
  end.

(** [repr] of plain text without quotes or control characters. *)
Definition repr_str (s : string) : string := "'" +:+ s +:+ "'".

Fixpoint repr_value (v : value) : string :=
  match v with
  | VNone => "None"
  | VBool b => if b then "True" else "False"
  | VInt z => pretty z
  | VStr s => repr_str s
  | VDate y m d =>
      "datetime.date(" +:+ pretty y +:+ ", " +:+ pretty m +:+ ", "
      +:+ pretty d +:+ ")"
  | VList l => "[" +:+ String.concat ", " (map repr_value l) +:+ "]"
  | VDict d =>
      "{" +:+ String.concat ", "
                (map (fun kv => repr_str (fst kv) +:+ ": " +:+ repr_value (snd kv)) d)
          +:+ "}"
  end.

Definition repr_entries (l : snapshot) : string :=
  "[" +:+ String.concat ", " (map (fun r => repr_value (VDict r)) l) +:+ "]".

Definition python : runtime :=
  {| capitalize := capitalize_ascii;
     encode_basestring_ascii := encode_ascii;
     str_of_entries := repr_entries |}.

(** Sample entries and snapshots. *)
Definition job (name url : string) : record :=
  [("name", VStr name); ("url", VStr url)].

Definition engineer : record := job "Engineer" "http://a".
Definition scientist : record := job "Scientist" "http://b".
Definition analyst : record :=
  [("name", VStr "Analyst"); ("expires", VDate 2024 1 31);
   ("url", VStr "http://c")].
Definition draft : record := job "Draft" "".
Definition note : record := [("name", VStr "Call for papers")].
Definition librarian : record := job "Librarian" "http://d".

(** Sample files, environment and services. *)
Definition files (filename : string) : exn + snapshot :=
  if String.eqb filename "none.yaml" then inr []
  else if String.eqb filename "old.yaml" then inr [engineer]
  else if String.eqb filename "new.yaml"
       then inr [engineer; note; scientist; analyst]
  else if String.eqb filename "three.yaml"
       then inr [scientist; analyst; librarian]
  else inl (LibraryError "yaml.YAMLError").

Definition on_disk (filename : string) : bool :=
  bool_decide (filename ∈ ["none.yaml"; "old.yaml"; "new.yaml"; "three.yaml"]).

Definition outputs : list (string * string) :=
  [("GITHUB_ENV", "/tmp/env"); ("GITHUB_OUTPUT", "/tmp/out")].

Definition credentials : list (string * string) :=
  [("SLACK_WEBHOOK", "https://hooks.example/T");
   ("TWITTER_API_KEY", "k"); ("TWITTER_API_SECRET", "s");
   ("TWITTER_CONSUMER_KEY", "ck"); ("TWITTER_CONSUMER_SECRET", "cs");
   ("MASTODON_ACCESS_TOKEN", "t");
   ("MASTODON_API_BASE_URL", "https://mastodon.example")].

Definition ok : response := {| status_code := 200; reason := "OK" |}.
Definition server_error : response :=
  {| status_code := 500; reason := "Internal Server Error" |}.

(** All services answer well. *)
Definition calm (environ : list (string * string)) : world :=
  {| os_environ := list_to_map environ;
     os_path_exists := on_disk;
     yaml_load := files;
     random_choice := fun _ => 0%nat;
     create_tweet := fun _ _ => None;
     mastodon_toot := fun _ _ => None;
     requests_post := fun _ _ _ => inr ok |}.

(** The webhook answers the call for the second entry with status 500. *)
Definition failing_chat : world :=
  {| os_environ := list_to_map (outputs ++ credentials);
     os_path_exists := on_disk;
     yaml_load := files;
     random_choice := fun _ => 0%nat;
     create_tweet := fun _ _ => None;
     mastodon_toot := fun _ _ => None;
     requests_post := fun i _ _ =>
                        if (i =? 1)%nat then inr server_error else inr ok |}.

(** Both social services raise. *)
Definition failing_social : world :=
  {| os_environ := list_to_map (outputs ++ credentials);
     os_path_exists := on_disk;
     yaml_load := files;
     random_choice := fun _ => 0%nat;
     create_tweet := fun _ _ => Some "403 Forbidden";
     mastodon_toot := fun _ _ => Some "MastodonNetworkError";
     requests_post := fun _ _ _ => inr ok |}.

(** [update --original o --updated u --keys name,url], with the chat,
    Twitter, Mastodon and test flags. *)
Definition update (o u : string) (chat twitter mastodon is_test : bool)
  : args :=
  {| original := Some o; deploy := chat; deploy_twitter := twitter;
     deploy_mastodon := mastodon; test := is_test; updated := Some u;
     keys := Some "name,url"; unique := "url" |}.

End Sample.

(** ** Notions the statements use *)

(** The uniqueness value of a record, when it has one, can be put in a
    set. *)
Definition field_hashable (F : string) (r : record) : bool :=
  match dict_get F r with
  | Some v => bool_decide (is_Some (hash_key v))
  | None => true
  end.

Definition all_hashable (F : string) (S : snapshot) : bool :=
  forallb (field_hashable F) S.

(** Some record of [A] has a value of field [F] equal to [v]. *)
Definition occurs_in (F : string) (A : snapshot) (v : value) : bool :=
  existsb (fun a => match dict_get F a with
                    | Some v' => py_eq v v'
                    | None => false
                    end) A.

(** The record has field [F] and no record of [A] shares its value. *)
Definition is_new (F : string) (A : snapshot) (r : record) : bool :=
  match dict_get F r with
  | Some v => negb (occurs_in F A v)
  | None => false
  end.

Definition has_field (F : string) (r : record) : bool :=
  bool_decide (is_Some (dict_get F r)).

(** Every uniqueness value of [B] is one of [A]. *)
Definition values_subset (F : string) (B A : snapshot) : bool :=
  forallb (fun b => match dict_get F b with
                    | Some v => occurs_in F A v
                    | None => true
                    end) B.

(** The two tests of lines 213 and 217 against a set [previous]. *)
Definition fresh_in (F : string) (previous : gset hkey) (r : record) : bool :=
  match dict_get F r with
  | Some v =>
      match hash_key v with
      | Some k => bool_decide (k ∉ previous)
      | None => false
      end
  | None => false
  end.

Definition known_in (F : string) (previous : gset hkey) (r : record) : bool :=
  match dict_get F r with
  | Some v =>
      match hash_key v with
      | Some k => bool_decide (k ∈ previous) && truthy v
      | None => false
      end
  | None => false
  end.

(** The keys of the uniqueness values of a snapshot. *)
Definition key_of_some (F : string) (A : snapshot) (k : hkey) : Prop :=
  ∃ a v, a ∈ A ∧ dict_get F a = Some v ∧ hash_key v = Some k.

(** The entry a network call is made for. *)
Definition dispatch_to (e : event) : option nat :=
  match e with
  | EvTweet i _ _ => Some i
  | EvToot i _ _ => Some i
  | EvPost i _ _ _ => Some i
  | _ => None
  end.

(** A trace without network calls. *)
Definition quiet (t : list event) : Prop :=
  Forall (fun e => dispatch_to e = None) t.

Definition is_post (e : event) : bool :=
  match e with
  | EvPost _ _ _ _ => true
  | _ => false
  end.

(** What line 299 exits with. *)
Definition post_failure_message (r : response) : string :=
  "Issue with making POST request: " +:+ reason r +:+ ", "
  +:+ pretty (status_code r).

(** Whenever the webhook answered a call with a status other than 200 and
    201, that call and the printing of the answer are the last things the
    run did, the run ended by [sys.exit] with the message of line 299, and
    no call was made for a later entry. *)
Definition stops_at_failed_post {A : Type} (m : Run A) : Prop :=
  ∀ i url body r,
    EvPost i url body (inr r) ∈ trace m ->
    status_code r ≠ 200 -> status_code r ≠ 201 ->
    result m = inl (SysExitMessage (post_failure_message r))
    ∧ (∃ before,
         trace m
         = before ++ [EvPost i url body (inr r);
                      EvPrint ("<Response [" +:+ pretty (status_code r) +:+ "]>")])
    ∧ ∀ e j, e ∈ trace m -> dispatch_to e = Some j -> (j <= i)%nat.

(** The checks of lines 184 to 201 pass: both files are named and exist,
    both load, and the keys are given. *)
Definition loaded (w : world) (a : args) (fa fb : string) (A B : snapshot)
    (fields : list string) : Prop :=
  original a = Some fa ∧ updated a = Some fb
  ∧ os_path_exists w fa = true ∧ os_path_exists w fb = true
  ∧ yaml_load w fa = inr A ∧ yaml_load w fb = inr B
  ∧ parse_keys <$> keys a = Some fields.

Definition all_set (w : world) (envars : list string) : bool :=
  forallb (fun envar => negb (unset (os_environ w !! envar))) envars.

(** The variables of every social channel that is switched on are set. *)
Definition credentials_set (w : world) (a : args) : bool :=
  (negb (deploy_twitter a) || all_set w twitter_envars)
  && (negb (deploy_mastodon a) || all_set w mastodon_envars).

Definition envar (w : world) (name : string) : string :=
  default "" (os_environ w !! name).

(** The clients lines 189 to 195 leave in [client] and [mastodon_client]. *)
Definition twitter_of (w : world) (a : args) : option twitter_client :=
  if deploy_twitter a
  then Some {| consumer_key := envar w "TWITTER_CONSUMER_KEY";
               consumer_secret := envar w "TWITTER_CONSUMER_SECRET";
               access_token := envar w "TWITTER_API_KEY";
               access_token_secret := envar w "TWITTER_API_SECRET" |}
  else None.

Definition mastodon_of (w : world) (a : args) : option mastodon_client :=
  if deploy_mastodon a
  then Some {| mastodon_access_token := envar w "MASTODON_ACCESS_TOKEN";
               api_base_url := envar w "MASTODON_API_BASE_URL" |}
  else None.

(** Lines 220 to 308, from the Delta on. *)
Definition after_diff (py : runtime) (w : world) (a : args)
    (fields : list string) (new : list record) : Run unit :=
  if test a then deliver py w a (twitter_of w a) (mastodon_of w a) fields new
  else match new with
       | [] => no_new_jobs w
       | _ => deliver py w a (twitter_of w a) (mastodon_of w a) fields new
       end.

(** The record has field [F] with a value that counts as true. *)
Definition has_true_field (F : string) (r : record) : bool :=
  match dict_get F r with
  | Some v => truthy v
  | None => false
  end.

(** [c in s] for a character. *)
Fixpoint contains (c : ascii) (s : string) : bool :=
  match s with
  | EmptyString => false
  | String c' s' => Ascii.eqb c' c || contains c s'
  end.

(** A key as [--keys] can carry it: not empty and without a comma. *)
Definition plain_key (k : string) : Prop :=
  k ≠ "" ∧ contains "," k = false.

Definition is_str (v : value) : bool :=
  match v with
  | VStr _ => true
  | _ => false
  end.

(** The line [prepare_post] writes for a key: the bare value for [url],
    the capitalized key before the value otherwise, nothing when the
    entry has no text under the key. *)
Definition post_line (py : runtime) (entry : record) (key : string) : string :=
  match dict_get key entry with
  | Some (VStr s) =>
      if String.eqb key "url" then s +:+ NL
      else capitalize py key +:+ ": " +:+ s +:+ NL
  | _ => ""
  end.

(** The value is a date or has one inside, at any depth. *)
Fixpoint contains_date (v : value) : bool :=
  match v with
  | VDate _ _ _ => true
  | VList l => existsb contains_date l
  | VDict d => existsb (fun kv => contains_date (snd kv)) d
  | _ => false
  end.

(** The items of an entry that have a JSON text, with that text, in the
    order of the entry. *)
Definition serialized_items (py : runtime) (entry : record) : dict string :=
  omap (fun kv => (fun s => (fst kv, s)) <$> json_dumps py (snd kv)) entry.

(** The calls made to the chat webhook, in order: the position of the
    entry and the answer. *)
Definition posts (t : list event) : list (nat * (exn + response)) :=
  omap (fun e => match e with
                 | EvPost i _ _ answer => Some (i, answer)
                 | _ => None
                 end) t.

(** An answer that line 297 accepts. *)
Definition accepted (answer : exn + response) : Prop :=
  ∃ r, answer = inr r ∧ (status_code r = 200 ∨ status_code r = 201).

(** The lines appended to the file that the variable [var] names. *)
Definition appended (var : string) (t : list event) : list string :=
  omap (fun e => match e with
                 | EvAppend v _ text =>
                     if String.eqb v var then Some text else None
                 | _ => None
                 end) t.

(** The three lines a run writes to an output file. *)
Definition output_lines (fields matrix empty_matrix : string) : list string :=
  ["fields=" +:+ fields +:+ NL;
   "matrix=" +:+ matrix +:+ NL;
   "empty_matrix=" +:+ empty_matrix +:+ NL].

Definition is_append (e : event) : bool :=
  match e with
  | EvAppend _ _ _ => true
  | _ => false
  end.

(** A run that does not end by [sys.exit] with a number. *)
Definition no_numbered_exit {A : Type} (m : Run A) : Prop :=
  ∀ code, result m ≠ inl (SysExit code).

(** The world with other answers of Twitter. *)
Definition with_tweets (answers : nat -> string -> option string)
    (w : world) : world :=
  {| os_environ := os_environ w;
     os_path_exists := os_path_exists w;
     yaml_load := yaml_load w;
     random_choice := random_choice w;
     create_tweet := answers;
     mastodon_toot := mastodon_toot w;
     requests_post := requests_post w |}.

(** What a run does apart from printing and from its calls to Twitter. *)
Definition other_effects (t : list event) : list event :=
  List.filter (fun e => match e with
                        | EvPrint _ => false
                        | EvTweet _ _ _ => false
                        | _ => true
                        end) t.

Definition same_outcome {A : Type} (m1 m2 : Run A) : Prop :=
  result m1 = result m2
  ∧ other_effects (trace m1) = other_effects (trace m2).

(** * Properties *)

(** ** The differ *)

Lemma seen_values_ok (F : string) (A : snapshot) :
  all_hashable F A = true ->
  ∀ S0 : gset hkey, ∃ P : gset hkey,
    seen_values F A S0 = inr P ∧ ∀ k, k ∈ P ↔ k ∈ S0 ∨ key_of_some F A k.
Proof.
  induction A as [|a A IH]; intros Hh S0; simpl.
  - exists S0. split; [done|]. intros k. split; [auto|].
    intros [H|(a & v & Ha & _)]; [done|]. by apply elem_of_nil in Ha.
  - simpl in Hh. apply andb_true_iff in Hh as [Ha HA].
    unfold field_hashable in Ha.
    destruct (dict_get F a) as [v|] eqn:Ev.
    + apply bool_decide_eq_true in Ha as [k Hk]. rewrite Hk.
      destruct (IH HA ({[k]} ∪ S0)) as (P & HP & Hmem).
      exists P. split; [done|]. intros k'. rewrite (Hmem k'). split.
      * intros [Hin|(a' & v' & Ha' & Hv' & Hk')].
        -- apply elem_of_union in Hin as [Hin|Hin]; [|by left].
           apply elem_of_singleton in Hin as ->.
           right. exists a, v. split; [apply elem_of_cons; by left|done].
        -- right. exists a', v'. split; [apply elem_of_cons; by right|done].
      * intros [Hin|(a' & v' & Ha' & Hv' & Hk')].
        -- left. apply elem_of_union. by right.
        -- apply elem_of_cons in Ha' as [->|Ha'].
           ++ left. rewrite Ev in Hv'. injection Hv' as <-.
              rewrite Hk in Hk'. injection Hk' as <-.
              apply elem_of_union. left. by apply elem_of_singleton.
           ++ right. by exists a', v'.
    + destruct (IH HA S0) as (P & HP & Hmem).
      exists P. split; [done|]. intros k'. rewrite (Hmem k'). split.
      * intros [Hin|(a' & v' & Ha' & Hv' & Hk')]; [by left|].
        right. exists a', v'. split; [apply elem_of_cons; by right|done].
      * intros [Hin|(a' & v' & Ha' & Hv' & Hk')]; [by left|].
        apply elem_of_cons in Ha' as [->|Ha']; [congruence|].
        right. by exists a', v'.
Qed.

Lemma classify_ok (F : string) (P : gset hkey) (B : snapshot) :
  all_hashable F B = true ->
  ∀ new entries,
    classify F P B new entries
    = inr (new ++ List.filter (fresh_in F P) B,
           entries ++ List.filter (known_in F P) B).
Proof.
  induction B as [|b B IH]; intros Hh new entries; simpl.
  - by rewrite !app_nil_r.
  - simpl in Hh. apply andb_true_iff in Hh as [Hb HB].
    unfold field_hashable in Hb. unfold fresh_in at 1, known_in at 1.
    destruct (dict_get F b) as [v|] eqn:Ev; [|by apply IH].
    apply bool_decide_eq_true in Hb as [k Hk]. rewrite Hk.
    destruct (decide (k ∈ P)) as [Hin|Hout].
    + rewrite (bool_decide_eq_false_2 (k ∉ P)) by tauto.
      rewrite (bool_decide_eq_true_2 (k ∈ P)) by done. simpl.
      destruct (truthy v); rewrite IH by done; [|done].
      by rewrite <- app_assoc.
    + rewrite (bool_decide_eq_true_2 (k ∉ P)) by done.
      rewrite (bool_decide_eq_false_2 (k ∈ P)) by done. simpl.
      rewrite IH by done. by rewrite <- app_assoc.
Qed.

Lemma py_eq_true (v v' : value) :
  py_eq v v' = true ↔ ∃ k, hash_key v = Some k ∧ hash_key v' = Some k.
Proof.
  unfold py_eq.
  destruct (hash_key v) as [k|], (hash_key v') as [k'|]; split;
    try discriminate; try (intros (k0 & ? & ?); discriminate).
  - intros H. apply bool_decide_eq_true in H as ->. eauto.
  - intros (k0 & [= ->] & [= ->]). by apply bool_decide_eq_true.
Qed.

Lemma occurs_in_key (F : string) (A : snapshot) (v : value) (k : hkey) :
  hash_key v = Some k -> occurs_in F A v = true ↔ key_of_some F A k.
Proof.
  intros Hk. unfold occurs_in, key_of_some. rewrite existsb_exists. split.
  - intros (a & Ha & Heq). destruct (dict_get F a) as [v'|] eqn:Ev; [|done].
    apply py_eq_true in Heq as (k0 & Hk0 & Hk0').
    exists a, v'. rewrite list_elem_of_In. repeat split; [done..|congruence].
  - intros (a & v' & Ha & Hv' & Hk'). exists a.
    rewrite <- list_elem_of_In. split; [done|]. rewrite Hv'.
    apply py_eq_true. eauto.
Qed.

Lemma occurs_in_spec (F : string) (A : snapshot) (v : value) :
  occurs_in F A v = false
  ↔ ∀ a v', a ∈ A -> dict_get F a = Some v' -> py_eq v v' = false.
Proof.
  unfold occurs_in. split.
  - intros H a v' Ha Hv'. destruct (py_eq v v') eqn:E; [|done].
    rewrite <- H. symmetry. apply existsb_exists. exists a.
    rewrite <- list_elem_of_In. by rewrite Hv'.
  - intros H. apply not_true_is_false. intros Hex.
    apply existsb_exists in Hex as (a & Ha & Heq).
    destruct (dict_get F a) as [v'|] eqn:Ev; [|done].
    apply list_elem_of_In in Ha. rewrite (H a v' Ha Ev) in Heq. done.
Qed.

Lemma fresh_in_is_new (F : string) (A : snapshot) (P : gset hkey) (B : snapshot) :
  (∀ k, k ∈ P ↔ key_of_some F A k) ->
  all_hashable F B = true ->
  List.filter (fresh_in F P) B = List.filter (is_new F A) B.
Proof.
  intros HP HB. apply filter_ext_in_iff. intros b Hb.
  unfold all_hashable in HB. rewrite forallb_forall in HB.
  specialize (HB b Hb). unfold field_hashable in HB.
  unfold fresh_in, is_new. destruct (dict_get F b) as [v|]; [|done].
  apply bool_decide_eq_true in HB as [k Hk]. rewrite Hk.
  pose proof (occurs_in_key F A v k Hk) as Hocc.
  destruct (occurs_in F A v); simpl.
  - apply bool_decide_eq_false. intros Hout. apply Hout, HP, Hocc. done.
  - apply bool_decide_eq_true. intros Hin. apply HP, Hocc in Hin. done.
Qed.

Lemma filter_sublist {X : Type} (f : X -> bool) (l : list X) :
  sublist (List.filter f l) l.
Proof.
  induction l as [|x l IH]; simpl; [constructor|].
  destruct (f x); by constructor.
Qed.

Lemma find_delta_ok (F : string) (is_test : bool) (A B : snapshot) :
  all_hashable F A = true -> all_hashable F B = true ->
  ∃ P : gset hkey,
    (∀ k, k ∈ P ↔ key_of_some F A k)
    ∧ find_delta F is_test A B
      = inr (if is_test then List.filter (known_in F P) B
             else List.filter (fresh_in F P) B).
Proof.
  intros HA HB. destruct (seen_values_ok F A HA ∅) as (P & HP & Hmem).
  exists P. split.
  - intros k. rewrite (Hmem k). split; [intros [H|H]; [set_solver|done]|auto].
  - unfold find_delta. rewrite HP, (classify_ok F P B HB). by destruct is_test.
Qed.

Lemma find_delta_new (F : string) (A B : snapshot) :
  all_hashable F A = true -> all_hashable F B = true ->
  find_delta F false A B = inr (List.filter (is_new F A) B).
Proof.
  intros HA HB. destruct (find_delta_ok F false A B HA HB) as (P & HP & Hd).
  by rewrite Hd, (fresh_in_is_new F A P B HP HB).
Qed.

Lemma is_new_spec (F : string) (A : snapshot) (r : record) :
  is_new F A r = true
  ↔ ∃ v, dict_get F r = Some v
         ∧ ∀ a v', a ∈ A -> dict_get F a = Some v' -> py_eq v v' = false.
Proof.
  unfold is_new. split.
  - destruct (dict_get F r) as [v|]; [|done]. intros Hn. exists v.
    split; [done|]. apply occurs_in_spec. by apply negb_true_iff.
  - intros (v & -> & Hn). apply negb_true_iff. by apply occurs_in_spec.
Qed.

(** C1: outside test runs, a record of the updated snapshot is in the
    Delta exactly when it has the uniqueness field and no record of the
    original snapshot has the same value of it; the Delta is the updated
    snapshot with the other records left out, in the same order. *)
Theorem delta_is_the_new_records (F : string) (A B : snapshot) :
  all_hashable F A = true -> all_hashable F B = true ->
  ∃ delta,
    find_delta F false A B = inr delta
    ∧ delta = List.filter (is_new F A) B
    ∧ sublist delta B
    ∧ ∀ r, r ∈ delta
           ↔ r ∈ B ∧ ∃ v, dict_get F r = Some v
                          ∧ ∀ a v', a ∈ A -> dict_get F a = Some v' ->
                                    py_eq v v' = false.
Proof.
  intros HA HB. exists (List.filter (is_new F A) B).
  split; [by apply find_delta_new|]. split; [done|].
  split; [apply filter_sublist|].
  intros r. rewrite list_elem_of_In, filter_In, <- list_elem_of_In.
  by rewrite is_new_spec.
Qed.

Lemma all_hashable_app (F : string) (S1 S2 : snapshot) :
  all_hashable F (S1 ++ S2) = all_hashable F S1 && all_hashable F S2.
Proof. unfold all_hashable. apply forallb_app. Qed.

Lemma find_delta_test (F : string) (A B : snapshot) :
  all_hashable F A = true -> all_hashable F B = true ->
  ∃ P : gset hkey,
    (∀ k, k ∈ P ↔ key_of_some F A k)
    ∧ find_delta F true A B = inr (List.filter (known_in F P) B).
Proof. intros HA HB. apply (find_delta_ok F true A B HA HB). Qed.

Lemma delta_is_the_new_records_witness :
  all_hashable "url" [Sample.engineer] = true
  ∧ all_hashable "url"
      [Sample.engineer; Sample.note; Sample.scientist; Sample.analyst] = true
  ∧ ∃ delta,
      find_delta "url" false [Sample.engineer]
        [Sample.engineer; Sample.note; Sample.scientist; Sample.analyst]
      = inr delta
      ∧ delta = [Sample.scientist; Sample.analyst].
Proof.
  split; [reflexivity|]. split; [reflexivity|].
  destruct (delta_is_the_new_records "url" [Sample.engineer]
              [Sample.engineer; Sample.note; Sample.scientist; Sample.analyst])
    as (delta & Hd & Heq & _); [reflexivity..|].
  exists delta. split; [exact Hd|]. rewrite Heq. reflexivity.
Defined.

(** A test run leaves out a record whose uniqueness value is the empty
    string, although the record has the field. *)
Lemma test_delta_leaves_out_empty_values :
  find_delta "url" true [Sample.draft] [Sample.draft] = inr []
  ∧ find_delta "url" true [Sample.draft] [Sample.draft]
    ≠ inr (List.filter (has_field "url") [Sample.draft]).
Proof. split; [vm_compute; reflexivity|]. vm_compute. discriminate. Qed.

(** A test run also leaves out the records that are new. *)
Lemma test_delta_leaves_out_new_records :
  find_delta "url" true [Sample.engineer] [Sample.engineer; Sample.scientist]
  = inr [Sample.engineer].
Proof. vm_compute. reflexivity. Qed.

(** C2, as amended: in a test run the Delta is the updated snapshot with
    some records left out, in the same order; each of its records has the
    uniqueness field with a value that counts as true; and it has every
    record of the updated snapshot whose value of the field counts as
    true and occurs in the original snapshot. *)
Theorem test_delta_has_the_known_records (F : string) (A B : snapshot) :
  all_hashable F A = true -> all_hashable F B = true ->
  ∃ delta,
    find_delta F true A B = inr delta
    ∧ sublist delta B
    ∧ (∀ r, r ∈ delta ->
            r ∈ B ∧ ∃ v, dict_get F r = Some v ∧ truthy v = true)
    ∧ (∀ r v, r ∈ B -> dict_get F r = Some v -> truthy v = true ->
              occurs_in F A v = true -> r ∈ delta).
Proof.
  intros HA HB. destruct (find_delta_test F A B HA HB) as (P & HP & Hd).
  exists (List.filter (known_in F P) B).
  split; [done|]. split; [apply filter_sublist|]. split.
  - intros r. rewrite list_elem_of_In, filter_In, <- list_elem_of_In.
    intros [Hr Hk]. split; [done|]. unfold known_in in Hk.
    destruct (dict_get F r) as [v|]; [|done]. exists v. split; [done|].
    destruct (hash_key v); [|done]. by apply andb_true_iff in Hk as [_ Hk].
  - intros r v Hr Hv Ht Hocc.
    rewrite list_elem_of_In, filter_In, <- list_elem_of_In. split; [done|].
    unfold known_in. rewrite Hv.
    unfold all_hashable in HB. rewrite forallb_forall in HB.
    apply list_elem_of_In in Hr. specialize (HB r Hr).
    unfold field_hashable in HB. rewrite Hv in HB.
    apply bool_decide_eq_true in HB as [k Hk]. rewrite Hk, Ht, andb_true_r.
    apply bool_decide_eq_true, HP. by apply (occurs_in_key F A v k Hk).
Qed.

(** C10: the set of seen values comes from the original snapshot alone.
    When two records of the updated snapshot share a value of the
    uniqueness field that the original snapshot does not have, both are
    in the Delta, and what is kept of the records around them is what is
    kept of these taken alone. *)
Theorem repeated_new_values_are_all_kept
    (F : string) (A B1 B2 B3 : snapshot) (r1 r2 : record) (v1 v2 : value) :
  all_hashable F A = true ->
  all_hashable F (B1 ++ r1 :: B2 ++ r2 :: B3) = true ->
  dict_get F r1 = Some v1 -> dict_get F r2 = Some v2 ->
  py_eq v1 v2 = true ->
  occurs_in F A v1 = false ->
  ∃ D1 D2 D3,
    find_delta F false A B1 = inr D1
    ∧ find_delta F false A B2 = inr D2
    ∧ find_delta F false A B3 = inr D3
    ∧ find_delta F false A (B1 ++ r1 :: B2 ++ r2 :: B3)
      = inr (D1 ++ r1 :: D2 ++ r2 :: D3).
Proof.
  intros HA HB H1 H2 Heq Hnew.
  pose proof HB as HB'. rewrite all_hashable_app in HB'.
  apply andb_true_iff in HB' as [HB1 HB']. simpl in HB'.
  apply andb_true_iff in HB' as [_ HB'].
  change (forallb (field_hashable F) (B2 ++ r2 :: B3))
    with (all_hashable F (B2 ++ r2 :: B3)) in HB'.
  rewrite all_hashable_app in HB'.
  apply andb_true_iff in HB' as [HB2 HB']. simpl in HB'.
  apply andb_true_iff in HB' as [_ HB3].
  exists (List.filter (is_new F A) B1), (List.filter (is_new F A) B2),
    (List.filter (is_new F A) B3).
  rewrite !find_delta_new by done. repeat split.
  apply py_eq_true in Heq as (k & Hk1 & Hk2).
  assert (occurs_in F A v2 = false) as Hnew2.
  { apply not_true_is_false. intros Hocc.
    apply (occurs_in_key F A v2 k Hk2) in Hocc.
    apply (occurs_in_key F A v1 k Hk1) in Hocc. congruence. }
  assert (is_new F A r1 = true) as N1 by (unfold is_new; by rewrite H1, Hnew).
  assert (is_new F A r2 = true) as N2 by (unfold is_new; by rewrite H2, Hnew2).
  rewrite List.filter_app. simpl. rewrite N1, List.filter_app. simpl.
  by rewrite N2.
Qed.

Lemma test_delta_has_the_known_records_witness :
  all_hashable "url" [Sample.engineer; Sample.draft] = true
  ∧ all_hashable "url" [Sample.draft; Sample.engineer; Sample.scientist] = true
  ∧ ∃ delta,
      find_delta "url" true [Sample.engineer; Sample.draft]
        [Sample.draft; Sample.engineer; Sample.scientist] = inr delta
      ∧ Sample.engineer ∈ delta.
Proof.
  split; [reflexivity|]. split; [reflexivity|].
  destruct (test_delta_has_the_known_records "url"
              [Sample.engineer; Sample.draft]
              [Sample.draft; Sample.engineer; Sample.scientist])
    as (delta & Hd & _ & _ & Hin); [reflexivity..|].
  exists delta. split; [exact Hd|].
  apply (Hin Sample.engineer (VStr "http://a")); [|reflexivity..].
  apply list_elem_of_further, list_elem_of_here.
Defined.

Lemma repeated_new_values_are_all_kept_witness :
  find_delta "url" false [Sample.engineer]
    ([Sample.engineer] ++ Sample.scientist
       :: [Sample.note] ++ Sample.scientist :: [Sample.analyst])
  = inr ([] ++ Sample.scientist :: [] ++ Sample.scientist :: [Sample.analyst]).
Proof.
  destruct (repeated_new_values_are_all_kept "url" [Sample.engineer]
              [Sample.engineer] [Sample.note] [Sample.analyst]
              Sample.scientist Sample.scientist
              (VStr "http://b") (VStr "http://b"))
    as (D1 & D2 & D3 & H1 & H2 & H3 & H); [reflexivity..|].
  rewrite H. vm_compute in H1, H2, H3.
  injection H1 as <-. injection H2 as <-. injection H3 as <-. reflexivity.
Defined.

(** ** Runs *)

Lemma trace_bind {A B : Type} (m : Run A) (k : A -> Run B) :
  trace (bind m k)
  = trace m ++ match result m with
               | inl _ => []
               | inr a => trace (k a)
               end.
Proof.
  destruct m as [t [s|x]]; simpl; [by rewrite app_nil_r|].
  by destruct (k x).
Qed.

Lemma result_bind {A B : Type} (m : Run A) (k : A -> Run B) :
  result (bind m k)
  = match result m with
    | inl s => inl s
    | inr a => result (k a)
    end.
Proof. destruct m as [t [s|x]]; simpl; [done|]. by destruct (k x). Qed.

Lemma Forall_trace_bind {A B : Type} (P : event -> Prop)
    (m : Run A) (k : A -> Run B) :
  Forall P (trace m) -> (∀ x, Forall P (trace (k x))) ->
  Forall P (trace (bind m k)).
Proof.
  intros Hm Hk. rewrite trace_bind. apply Forall_app. split; [done|].
  destruct (result m); [constructor|apply Hk].
Qed.

(** Steps through a run to show that every event of its trace has a
    property that the local events (printing, reading, writing) have. *)
Ltac trace_step :=
  match goal with
  | |- Forall _ (trace (bind _ _)) => apply Forall_trace_bind; [|intros]
  | |- Forall _ (trace (emit _)) => apply Forall_singleton; simpl
  | |- Forall _ (trace (ret _)) => apply Forall_nil_2
  | |- Forall _ (trace (halt _)) => apply Forall_nil_2
  | |- Forall _ (trace (raise _)) => apply Forall_nil_2
  | |- Forall _ (trace (sys_exit _)) => apply Forall_nil_2
  | |- Forall _ (trace (lift ?r)) => destruct r; apply Forall_nil_2
  | |- Forall _ (trace (if ?b then _ else _)) => destruct b eqn:?
  | |- Forall _ (trace (match ?x with _ => _ end)) => destruct x eqn:?
  end.

Section Local.

Context (py : runtime) (w : world).
Context (P : event -> Prop).
Context (P_print : ∀ line, P (EvPrint line)).
Context (P_read : ∀ f, P (EvRead f)).
Context (P_append : ∀ v p t, P (EvAppend v p t)).
Context (P_help : P EvHelp).

Lemma set_env_and_output_local (name value : string) :
  Forall P (trace (set_env_and_output w name value)).
Proof.
  unfold set_env_and_output, append_to. repeat trace_step; auto.
Qed.

Lemma require_envars_silent (service : string) (envars : list string) :
  trace (require_envars w service envars) = [].
Proof.
  induction envars as [|v envars IH]; simpl; [done|].
  destruct (unset (os_environ w !! v)); [done|].
  rewrite trace_bind, IH. by destruct (result _).
Qed.

Lemma no_new_jobs_local : Forall P (trace (no_new_jobs w)).
Proof.
  unfold no_new_jobs.
  repeat (trace_step; auto using set_env_and_output_local).
Qed.

End Local.

(** ** Start of a run *)

Lemma require_envars_set (w : world) (service : string) (envars : list string) :
  all_set w envars = true ->
  require_envars w service envars = ret (map (envar w) envars).
Proof.
  induction envars as [|v envars IH]; simpl; [done|].
  intros H. apply andb_true_iff in H as [Hv H].
  apply negb_true_iff in Hv. rewrite Hv, (IH H). done.
Qed.

Lemma require_envars_missing (w : world) (service : string)
    (envars : list string) :
  all_set w envars = false ->
  ∃ v, v ∈ envars ∧ unset (os_environ w !! v) = true
       ∧ require_envars w service envars
         = sys_exit (v +:+ " is not set, and required when " +:+ service
                     +:+ " deploy is true!").
Proof.
  induction envars as [|v envars IH]; simpl; [done|].
  destruct (unset (os_environ w !! v)) eqn:Hv; simpl.
  - intros _. exists v. split; [apply list_elem_of_here|done].
  - intros H. destruct (IH H) as (v' & Hin & Hun & Heq).
    exists v'. split; [by apply list_elem_of_further|]. split; [done|].
    by rewrite Heq.
Qed.

Lemma get_twitter_client_set (w : world) (a : args) :
  deploy_twitter a = true -> all_set w twitter_envars = true ->
  get_twitter_client w = ret (default
    {| consumer_key := ""; consumer_secret := "";
       access_token := ""; access_token_secret := "" |} (twitter_of w a)).
Proof.
  intros Ha H. unfold get_twitter_client, twitter_of.
  by rewrite (require_envars_set w _ _ H), Ha.
Qed.

Lemma get_mastodon_client_set (w : world) (a : args) :
  deploy_mastodon a = true -> all_set w mastodon_envars = true ->
  get_mastodon_client w = ret (default
    {| mastodon_access_token := ""; api_base_url := "" |} (mastodon_of w a)).
Proof.
  intros Ha H. unfold get_mastodon_client, mastodon_of.
  by rewrite (require_envars_set w _ _ H), Ha.
Qed.

Lemma twitter_stage_set (w : world) (a : args) :
  negb (deploy_twitter a) || all_set w twitter_envars = true ->
  (if deploy_twitter a
   then bind (get_twitter_client w) (fun c => ret (Some c))
   else ret None) = ret (twitter_of w a).
Proof.
  intros Ht.
  destruct (deploy_twitter a) eqn:Ea; [|by unfold twitter_of; rewrite Ea].
  simpl in Ht. rewrite (get_twitter_client_set w a Ea Ht).
  unfold twitter_of. by rewrite Ea.
Qed.

Lemma mastodon_stage_set (w : world) (a : args) :
  negb (deploy_mastodon a) || all_set w mastodon_envars = true ->
  (if deploy_mastodon a
   then bind (get_mastodon_client w) (fun c => ret (Some c))
   else ret None) = ret (mastodon_of w a).
Proof.
  intros Hm.
  destruct (deploy_mastodon a) eqn:Ea; [|by unfold mastodon_of; rewrite Ea].
  simpl in Hm. rewrite (get_mastodon_client_set w a Ea Hm).
  unfold mastodon_of. by rewrite Ea.
Qed.

Lemma twitter_stage_missing (w : world) (a : args) :
  negb (deploy_twitter a) || all_set w twitter_envars = false ->
  ∃ message,
    (if deploy_twitter a
     then bind (get_twitter_client w) (fun c => ret (Some c))
     else ret None) = sys_exit message.
Proof.
  intros Ht. destruct (deploy_twitter a); [|done]. simpl in Ht.
  destruct (require_envars_missing w "twitter" twitter_envars Ht) as (v & _ & _ & Heq).
  eexists. unfold get_twitter_client. rewrite Heq. reflexivity.
Qed.

Lemma mastodon_stage_missing (w : world) (a : args) :
  negb (deploy_mastodon a) || all_set w mastodon_envars = false ->
  ∃ message,
    (if deploy_mastodon a
     then bind (get_mastodon_client w) (fun c => ret (Some c))
     else ret None) = sys_exit message.
Proof.
  intros Hm. destruct (deploy_mastodon a); [|done]. simpl in Hm.
  destruct (require_envars_missing w "mastodon" mastodon_envars Hm) as (v & _ & _ & Heq).
  eexists. unfold get_mastodon_client. rewrite Heq. reflexivity.
Qed.

(** When the checks pass, [main] reads both files, computes the Delta and
    goes on with it. *)
Lemma main_ready (py : runtime) (w : world) (a : args) (fa fb : string)
    (A B : snapshot) (fields : list string) :
  loaded w a fa fb A B fields -> credentials_set w a = true ->
  main py w (Some a)
  = bind ([EvRead fa; EvRead fb], inr tt)
      (fun _ => bind (lift (find_delta (unique a) (test a) A B))
                  (after_diff py w a fields)).
Proof.
  intros (Ho & Hu & Hfa & Hfb & HA & HB & Hk) Hc.
  unfold credentials_set in Hc. apply andb_true_iff in Hc as [Ht Hm].
  unfold main, check_exists, read_yaml. rewrite Ho, Hu. simpl.
  rewrite Hfa, Hfb. simpl.
  rewrite (twitter_stage_set w a Ht), (mastodon_stage_set w a Hm).
  simpl. rewrite HA, HB. simpl.
  destruct (keys a) as [ks|]; [|done]. injection Hk as <-. simpl.
  destruct (find_delta (unique a) (test a) A B) as [e|new]; simpl; [done|].
  unfold after_diff.
  destruct (test a); [by destruct (deliver _ _ _ _ _ _ _)|].
  destruct new; [by destruct (no_new_jobs w)|].
  by destruct (deliver _ _ _ _ _ _ _).
Qed.

(** A trace of file reads only. *)
Lemma reads_quiet (t : list event) :
  Forall (fun e => ∃ f, e = EvRead f) t -> quiet t.
Proof. intros H. eapply Forall_impl; [exact H|]. by intros e [f ->]. Qed.

(** Either a check of lines 184 to 218 stops the run, with status 1 and
    after file reads at most, or the run goes on with the Delta. *)
Lemma main_cases (py : runtime) (w : world) (a : args) :
  (Forall (fun e => ∃ f, e = EvRead f) (trace (main py w (Some a)))
   ∧ exit_status (result (main py w (Some a))) = 1)
  ∨ ∃ fa fb A B fields new,
      loaded w a fa fb A B fields
      ∧ credentials_set w a = true
      ∧ find_delta (unique a) (test a) A B = inr new
      ∧ main py w (Some a)
        = bind ([EvRead fa; EvRead fb], inr tt)
            (fun _ => after_diff py w a fields new).
Proof.
  destruct (original a) as [fa|] eqn:Ho;
    [|left; unfold main, check_exists; rewrite Ho; split; [constructor|done]].
  destruct (os_path_exists w fa) eqn:Hfa;
    [|left; unfold main, check_exists; rewrite Ho; simpl; rewrite Hfa;
      split; [constructor|done]].
  destruct (updated a) as [fb|] eqn:Hu;
    [|left; unfold main, check_exists; rewrite Ho, Hu; simpl; rewrite Hfa;
      split; [constructor|done]].
  destruct (os_path_exists w fb) eqn:Hfb;
    [|left; unfold main, check_exists; rewrite Ho, Hu; simpl;
      rewrite Hfa, Hfb; split; [constructor|done]].
  destruct (negb (deploy_twitter a) || all_set w twitter_envars) eqn:Ht;
    [|left; destruct (twitter_stage_missing w a Ht) as [msg Hmsg];
      unfold main, check_exists; rewrite Ho, Hu; simpl; rewrite Hfa, Hfb;
      simpl; rewrite Hmsg; split; [constructor|done]].
  destruct (negb (deploy_mastodon a) || all_set w mastodon_envars) eqn:Hm;
    [|left; destruct (mastodon_stage_missing w a Hm) as [msg Hmsg];
      unfold main, check_exists; rewrite Ho, Hu; simpl; rewrite Hfa, Hfb;
      simpl; rewrite (twitter_stage_set w a Ht), Hmsg;
      split; [constructor|done]].
  assert (
    main py w (Some a)
    = bind (read_yaml w fa) (fun original_jobs =>
        bind (read_yaml w fb) (fun updated_jobs =>
          bind (match keys a with
                | None => raise AttributeError
                | Some text => ret (parse_keys text)
                end) (fun fields =>
            bind (lift (find_delta (unique a) (test a)
                          original_jobs updated_jobs)) (fun new =>
              if test a
              then deliver py w a (twitter_of w a) (mastodon_of w a) fields new
              else match new with
                   | [] => no_new_jobs w
                   | _ => deliver py w a (twitter_of w a) (mastodon_of w a)
                            fields new
                   end))))) as Hmain.
  { unfold main, check_exists. rewrite Ho, Hu. simpl.
    rewrite Hfa, Hfb. simpl.
    rewrite (twitter_stage_set w a Ht), (mastodon_stage_set w a Hm). simpl.
    by destruct (bind (read_yaml w fa) _). }
  unfold read_yaml in Hmain.
  destruct (yaml_load w fa) as [e|A] eqn:HA;
    [left; rewrite Hmain; simpl; split; [repeat constructor; eauto|done]|].
  destruct (yaml_load w fb) as [e|B] eqn:HB;
    [left; rewrite Hmain; simpl; split; [repeat constructor; eauto|done]|].
  destruct (keys a) as [ks|] eqn:Hk;
    [|left; rewrite Hmain; simpl; split; [repeat constructor; eauto|done]].
  destruct (find_delta (unique a) (test a) A B) as [e|new] eqn:Hd;
    [left; rewrite Hmain; simpl; rewrite Hd; simpl;
     split; [repeat constructor; eauto|done]|].
  right. exists fa, fb, A, B, (parse_keys ks), new.
  assert (loaded w a fa fb A B (parse_keys ks)) as Hl.
  { unfold loaded. rewrite Hk. done. }
  assert (credentials_set w a = true) as Hc.
  { unfold credentials_set. by rewrite Ht, Hm. }
  split; [done|]. split; [done|]. split; [done|].
  rewrite (main_ready py w a fa fb A B (parse_keys ks) Hl Hc), Hd. simpl.
  by destruct (after_diff py w a (parse_keys ks) new).
Qed.

(** ** From the Delta to the outputs *)

Section Delivery.

Context (py : runtime) (w : world) (a : args).
Context (P : event -> Prop).
Context (P_print : ∀ line, P (EvPrint line)).
Context (P_read : ∀ f, P (EvRead f)).
Context (P_append : ∀ v p t, P (EvAppend v p t)).
Context (P_announce :
  ∀ client mastodon webhook fields i entry matrix,
    Forall P (trace (announce py w a client mastodon webhook fields
                       i entry matrix))).

Lemma announce_all_local client mastodon webhook fields new :
  ∀ i matrix,
    Forall P (trace (announce_all py w a client mastodon webhook fields
                       i new matrix)).
Proof.
  induction new as [|entry rest IH]; intros i matrix; simpl.
  - constructor.
  - apply Forall_trace_bind; [apply P_announce|]. intros matrix'. apply IH.
Qed.

Lemma deliver_local client mastodon fields new :
  Forall P (trace (deliver py w a client mastodon fields new)).
Proof.
  unfold deliver.
  repeat (trace_step;
          auto using set_env_and_output_local, announce_all_local).
Qed.

Lemma after_diff_local fields new :
  Forall P (trace (after_diff py w a fields new)).
Proof.
  unfold after_diff.
  destruct (test a); [apply deliver_local|].
  destruct new; [by apply no_new_jobs_local|apply deliver_local].
Qed.

Lemma main_local : Forall P (trace (main py w (Some a))).
Proof.
  destruct (main_cases py w a)
    as [[Hr _]|(fa & fb & A & B & fields & new & _ & _ & _ & ->)].
  - eapply Forall_impl; [exact Hr|]. by intros e [f ->].
  - apply Forall_trace_bind; [by repeat constructor|].
    intros _. apply after_diff_local.
Qed.

End Delivery.

Lemma announce_without_post (py : runtime) (w : world) (a : args)
    client mastodon webhook fields i entry matrix :
  deploy a = false ∨ test a = true ->
  Forall (fun e => is_post e = false)
    (trace (announce py w a client mastodon webhook fields i entry matrix)).
Proof.
  intros H.
  assert (negb (deploy a) || test a = true) as Hskip.
  { destruct H as [-> | ->]; [done|by rewrite orb_true_r]. }
  unfold announce. rewrite Hskip. repeat trace_step; done.
Qed.

(** C6: when the chat flag is off or the run is a test run, no call to
    the chat webhook is made, whatever the two social flags say. *)
Theorem chat_webhook_is_not_called (py : runtime) (w : world) (a : args) :
  deploy a = false ∨ test a = true ->
  ∀ i url body answer,
    EvPost i url body answer ∉ trace (main py w (Some a)).
Proof.
  intros H i url body answer Hin.
  assert (Forall (fun e => is_post e = false) (trace (main py w (Some a))))
    as Hall.
  { apply main_local; try done.
    intros. by apply announce_without_post. }
  rewrite Forall_forall in Hall. by specialize (Hall _ Hin).
Qed.

Lemma chat_webhook_is_not_called_witness :
  let w := Sample.calm (Sample.outputs ++ Sample.credentials) in
  let a := Sample.update "old.yaml" "new.yaml" true true true true in
  (deploy a = false ∨ test a = true)
  ∧ find_delta "url" true [Sample.engineer]
      [Sample.engineer; Sample.note; Sample.scientist; Sample.analyst]
    = inr [Sample.engineer]
  ∧ omap dispatch_to (trace (main Sample.python w (Some a))) = [0; 0]%nat
  ∧ ∀ i url body answer,
      EvPost i url body answer ∉ trace (main Sample.python w (Some a)).
Proof.
  intros w a. split; [right; reflexivity|].
  split; [vm_compute; reflexivity|]. split; [vm_compute; reflexivity|].
  apply (chat_webhook_is_not_called Sample.python w a).
  right. reflexivity.
Defined.

(** ** Failure of the chat webhook *)

Lemma quiet_stops {A : Type} (m : Run A) :
  quiet (trace m) -> stops_at_failed_post m.
Proof.
  intros Hq i url body r Hin. unfold quiet in Hq.
  rewrite Forall_forall in Hq. by specialize (Hq _ Hin).
Qed.

Lemma stops_after_quiet {A B : Type} (m : Run A) (k : A -> Run B) :
  quiet (trace m) -> (∀ x, stops_at_failed_post (k x)) ->
  stops_at_failed_post (bind m k).
Proof.
  intros Hq Hk i url body r Hin H200 H201.
  unfold quiet in Hq. rewrite Forall_forall in Hq.
  rewrite trace_bind in Hin. apply elem_of_app in Hin as [Hin|Hin].
  { by specialize (Hq _ Hin). }
  rewrite trace_bind, result_bind.
  destruct (result m) as [s|x]; [by apply elem_of_nil in Hin|].
  destruct (Hk x i url body r Hin H200 H201) as (Hres & [before Hb] & Hle).
  split; [done|]. split.
  - exists (trace m ++ before). by rewrite Hb, app_assoc.
  - intros e j He Hj. apply elem_of_app in He as [He|He]; [|by eapply Hle].
    specialize (Hq _ He). congruence.
Qed.

Lemma stops_before_quiet {A B : Type} (m : Run A) (k : A -> Run B) :
  stops_at_failed_post m -> (∀ x, quiet (trace (k x))) ->
  stops_at_failed_post (bind m k).
Proof.
  intros Hm Hk i url body r Hin H200 H201.
  rewrite trace_bind in Hin. apply elem_of_app in Hin as [Hin|Hin].
  - destruct (Hm i url body r Hin H200 H201) as (Hres & Hb & Hle).
    rewrite trace_bind, result_bind, Hres, app_nil_r. done.
  - destruct (result m) as [s|x]; [by apply elem_of_nil in Hin|].
    specialize (Hk x). unfold quiet in Hk. rewrite Forall_forall in Hk.
    by specialize (Hk _ Hin).
Qed.

(** Case analysis on membership in an explicit list. *)
Ltac in_list H :=
  repeat match type of H with
         | _ ∈ [] => by apply elem_of_nil in H
         | _ ∈ _ :: _ => apply elem_of_cons in H as [H|H]
         end.

Ltac split_last_two :=
  first [ by exists [] | by eexists [_] | by eexists [_; _]
        | by eexists [_; _; _] | by eexists [_; _; _; _]
        | by eexists [_; _; _; _; _] ].

(** One turn of the loop: it stops at a failed post, and its calls are
    all made for its own entry. *)
Lemma announce_stops (py : runtime) (w : world) (a : args)
    client mastodon webhook fields i entry matrix :
  stops_at_failed_post
    (announce py w a client mastodon webhook fields i entry matrix)
  ∧ ∀ e j, e ∈ trace (announce py w a client mastodon webhook fields
                        i entry matrix) ->
           dispatch_to e = Some j -> j = i.
Proof.
  unfold stops_at_failed_post, announce.
  set (choice := nth _ icons ""). clearbody choice.
  destruct (prepare_post py entry fields) as [e|post]; simpl.
  { split; intros; by apply elem_of_nil in H. }
  destruct (deploy_twitter a && bool_decide (is_Some client));
    destruct (deploy_mastodon a && bool_decide (is_Some mastodon));
    destruct (negb (deploy a) || test a);
    destruct webhook as [url0|];
    repeat match goal with
           | |- context [create_tweet ?w ?i ?m] => destruct (create_tweet w i m)
           | |- context [mastodon_toot ?w ?i ?m] => destruct (mastodon_toot w i m)
           | |- context [requests_post ?w ?i ?u ?d] =>
               destruct (requests_post w i u d) as [?|r0]
           | |- context [bool_decide (status_code ?r ∈ ?l)] =>
               destruct (bool_decide_reflect (status_code r ∈ l)) as [Hok|Hko]
           end; simpl.
  all: split.
  all: try (intros e0 j0 Hin Hd; in_list Hin; subst; simpl in Hd; congruence).
  all: intros i1 url1 body1 r1 Hin H200 H201; in_list Hin; try discriminate.
  all: injection Hin as -> -> -> ->.
  all: try (exfalso; in_list Hok; congruence).
  all: split; [reflexivity|]; split; [split_last_two|].
  all: intros e0 j0 Hin Hd; in_list Hin; subst; simpl in Hd; try discriminate.
  all: injection Hd as <-; lia.
Qed.

Lemma announce_all_stops (py : runtime) (w : world) (a : args)
    client mastodon webhook fields new :
  ∀ i matrix,
    stops_at_failed_post
      (announce_all py w a client mastodon webhook fields i new matrix)
    ∧ ∀ e j, e ∈ trace (announce_all py w a client mastodon webhook fields
                          i new matrix) ->
             dispatch_to e = Some j -> (i <= j)%nat.
Proof.
  induction new as [|entry rest IH]; intros i matrix; simpl.
  { split; [apply quiet_stops; constructor|].
    intros e j He. by apply elem_of_nil in He. }
  destruct (announce_stops py w a client mastodon webhook fields i entry matrix)
    as [Hstop Hown].
  set (m := announce py w a client mastodon webhook fields i entry matrix) in *.
  split.
  - intros i1 url body r Hin H200 H201.
    rewrite trace_bind in Hin. rewrite trace_bind, result_bind.
    apply elem_of_app in Hin as [Hin|Hin].
    + destruct (Hstop i1 url body r Hin H200 H201) as (Hres & Hb & Hle).
      rewrite Hres, app_nil_r. done.
    + destruct (result m) as [s|matrix']; [by apply elem_of_nil in Hin|].
      destruct (IH (S i) matrix') as [Hrest Hlow].
      destruct (Hrest i1 url body r Hin H200 H201) as (Hres & [before Hb] & Hle).
      split; [done|]. split.
      * exists (trace m ++ before). by rewrite Hb, app_assoc.
      * intros e j He Hj. apply elem_of_app in He as [He|He]; [|by eapply Hle].
        rewrite (Hown e j He Hj).
        specialize (Hlow _ i1 Hin eq_refl). lia.
  - intros e j He Hj. rewrite trace_bind in He.
    apply elem_of_app in He as [He|He].
    + by rewrite (Hown e j He Hj).
    + destruct (result m) as [s|matrix']; [by apply elem_of_nil in He|].
      destruct (IH (S i) matrix') as [_ Hlow].
      specialize (Hlow e j He Hj). lia.
Qed.

Lemma deliver_stops (py : runtime) (w : world) (a : args)
    client mastodon fields new :
  stops_at_failed_post (deliver py w a client mastodon fields new).
Proof.
  unfold deliver. apply stops_after_quiet.
  { destruct (_ && _); constructor. }
  intros _. apply stops_before_quiet; [apply announce_all_stops|].
  intros matrix. unfold quiet.
  repeat (trace_step; try (by apply set_env_and_output_local)); done.
Qed.

Lemma main_stops (py : runtime) (w : world) (argv : option args) :
  stops_at_failed_post (main py w argv).
Proof.
  destruct argv as [a|]; [|apply quiet_stops; by repeat constructor].
  destruct (main_cases py w a)
    as [[Hr _]|(fa & fb & A & B & fields & new & _ & _ & _ & ->)].
  { by apply quiet_stops, reads_quiet. }
  apply stops_after_quiet; [by repeat constructor|]. intros _.
  unfold after_diff. destruct (test a); [apply deliver_stops|].
  destruct new; [|apply deliver_stops].
  apply quiet_stops. by apply no_new_jobs_local.
Qed.

(** C5: when the chat webhook answers the call made for an entry with a
    status outside 200 to 299, the run ends there with the message of
    line 299 and a status other than 0: the call and the printing of the
    answer are the last things it does, and no call is made for a later
    entry. *)
Theorem chat_failure_stops_the_run (py : runtime) (w : world)
    (argv : option args) (i : nat) (url body : string) (r : response) :
  EvPost i url body (inr r) ∈ trace (main py w argv) ->
  ¬ (200 <= status_code r < 300) ->
  result (main py w argv) = inl (SysExitMessage (post_failure_message r))
  ∧ exit_status (result (main py w argv)) ≠ 0
  ∧ (∃ before,
       trace (main py w argv)
       = before ++ [EvPost i url body (inr r);
                    EvPrint ("<Response [" +:+ pretty (status_code r) +:+ "]>")])
  ∧ ∀ e j, e ∈ trace (main py w argv) -> dispatch_to e = Some j ->
           (j <= i)%nat.
Proof.
  intros Hin Hst.
  destruct (main_stops py w argv i url body r Hin) as (Hres & Hb & Hle);
    [lia..|].
  split; [done|]. split; [by rewrite Hres|]. done.
Qed.

Lemma chat_failure_stops_the_run_witness :
  let run := main Sample.python Sample.failing_chat
               (Some (Sample.update "old.yaml" "three.yaml"
                        true false false false)) in
  let call :=
    EvPost 1 "https://hooks.example/T"
      (slack_payload Sample.python
         ("New Job! " +:+ nth 0 icons "" +:+ NL +:+ "Name: Analyst" +:+ NL
          +:+ "http://c" +:+ NL))
      (inr Sample.server_error) in
  call ∈ trace run
  ∧ ¬ (200 <= 500 < 300)
  ∧ result run
    = inl (SysExitMessage
             "Issue with making POST request: Internal Server Error, 500")
  ∧ ∀ e j, e ∈ trace run -> dispatch_to e = Some j -> (j <= 1)%nat.
Proof.
  intros run call.
  assert (call ∈ trace run) as Hin.
  { apply (list_elem_of_lookup_2 _ 5%nat). vm_compute. reflexivity. }
  split; [exact Hin|]. split; [lia|].
  destruct (chat_failure_stops_the_run Sample.python Sample.failing_chat
              _ _ _ _ _ Hin) as (Hres & _ & _ & Hle); [simpl; lia|].
  split; [exact Hres|exact Hle].
Defined.

(** ** The short circuit *)

Lemma values_subset_hashable (F : string) (B A : snapshot) :
  values_subset F B A = true -> all_hashable F B = true.
Proof.
  unfold values_subset, all_hashable. rewrite !forallb_forall.
  intros H b Hb. specialize (H b Hb). unfold field_hashable.
  destruct (dict_get F b) as [v|]; [|done].
  apply bool_decide_eq_true. unfold occurs_in in H.
  apply existsb_exists in H as (a & _ & H).
  destruct (dict_get F a) as [v'|]; [|done].
  apply py_eq_true in H as (k & Hk & _). by exists k.
Qed.

Lemma values_subset_no_new (F : string) (B A : snapshot) :
  values_subset F B A = true -> List.filter (is_new F A) B = [].
Proof.
  induction B as [|b B IH]; simpl; [done|].
  intros H. apply andb_true_iff in H as [Hb HB].
  unfold is_new at 1. destruct (dict_get F b) as [v|]; [|by apply IH].
  rewrite Hb. simpl. by apply IH.
Qed.

(** C3: outside test runs, when every uniqueness value of the updated
    snapshot is one of the original snapshot, a run that passes the
    checks of its start prints that there is nothing new, writes
    [fields=[]], [matrix=[]] and [empty_matrix=true] to both output files
    and exits with status 0; it makes no network call. *)
Theorem no_new_jobs_short_circuit (py : runtime) (w : world) (a : args)
    (fa fb : string) (A B : snapshot) (fields : list string)
    (env_path out_path : string) :
  test a = false ->
  loaded w a fa fb A B fields ->
  credentials_set w a = true ->
  os_environ w !! "GITHUB_ENV" = Some env_path ->
  os_environ w !! "GITHUB_OUTPUT" = Some out_path ->
  all_hashable (unique a) A = true ->
  values_subset (unique a) B A = true ->
  main py w (Some a)
  = ([EvRead fa; EvRead fb;
      EvPrint "No new jobs found.";
      EvPrint "Writing fields=[] to GITHUB_ENV";
      EvAppend "GITHUB_ENV" env_path ("fields=[]" +:+ NL);
      EvPrint "Writing fields=[] to GITHUB_OUTPUT";
      EvAppend "GITHUB_OUTPUT" out_path ("fields=[]" +:+ NL);
      EvPrint "Writing matrix=[] to GITHUB_ENV";
      EvAppend "GITHUB_ENV" env_path ("matrix=[]" +:+ NL);
      EvPrint "Writing matrix=[] to GITHUB_OUTPUT";
      EvAppend "GITHUB_OUTPUT" out_path ("matrix=[]" +:+ NL);
      EvPrint "Writing empty_matrix=true to GITHUB_ENV";
      EvAppend "GITHUB_ENV" env_path ("empty_matrix=true" +:+ NL);
      EvPrint "Writing empty_matrix=true to GITHUB_OUTPUT";
      EvAppend "GITHUB_OUTPUT" out_path ("empty_matrix=true" +:+ NL)],
     inl (SysExit 0))
  ∧ exit_status (result (main py w (Some a))) = 0
  ∧ quiet (trace (main py w (Some a))).
Proof.
  intros Ht Hl Hc Henv Hout HA Hsub.
  assert (main py w (Some a)
          = bind ([EvRead fa; EvRead fb], inr tt) (fun _ => no_new_jobs w))
    as Hmain.
  { rewrite (main_ready py w a fa fb A B fields Hl Hc), Ht.
    rewrite (find_delta_new _ A B HA (values_subset_hashable _ B A Hsub)).
    rewrite (values_subset_no_new _ B A Hsub). simpl.
    unfold after_diff. rewrite Ht. by destruct (no_new_jobs w). }
  rewrite Hmain. unfold no_new_jobs, set_env_and_output, append_to.
  rewrite Henv, Hout. simpl. split; [done|]. split; [done|].
  unfold quiet. by repeat constructor.
Qed.

Lemma no_new_jobs_short_circuit_witness :
  let w := Sample.calm Sample.outputs in
  let a := Sample.update "old.yaml" "old.yaml" true false false false in
  Sample.files "old.yaml" = inr [Sample.engineer]
  ∧ values_subset "url" [Sample.engineer] [Sample.engineer] = true
  ∧ exit_status (result (main Sample.python w (Some a))) = 0
  ∧ quiet (trace (main Sample.python w (Some a))).
Proof.
  intros w a. split; [reflexivity|]. split; [reflexivity|].
  destruct (no_new_jobs_short_circuit Sample.python w a
              "old.yaml" "old.yaml" [Sample.engineer] [Sample.engineer]
              ["name"; "url"] "/tmp/env" "/tmp/out")
    as (_ & Hexit & Hquiet); try reflexivity.
  - unfold loaded. repeat split; reflexivity.
  - split; [exact Hexit|exact Hquiet].
Defined.

(** ** Missing credentials *)







(** ** Failures of the social channels *)

(** A failing tweet is caught: the turn of the loop ends as it would
    without the failure. *)
Lemma tweet_failure_is_caught (py : runtime) (w : world) (a : args)
    client mastodon webhook fields i entry matrix :
  deploy_mastodon a = false ->
  negb (deploy a) || test a = true ->
  result (announce py w a client mastodon webhook fields i entry matrix)
  = match prepare_post py entry fields with
    | inl e => inl (Uncaught e)
    | inr _ => inr (matrix ++ [filter_serializable py entry])
    end.
Proof.
  intros Hm Hskip. unfold announce. rewrite Hm, Hskip.
  destruct (prepare_post py entry fields) as [e|post]; simpl; [done|].
  destruct (deploy_twitter a && bool_decide (is_Some client)); simpl; [|done].
  by destruct (create_tweet w i _).
Qed.

(** A failing toot is not: it ends the turn, and with it the run, by an
    uncaught exception. *)
Lemma toot_failure_is_uncaught (py : runtime) (w : world) (a : args)
    client mastodon webhook fields i entry matrix post e :
  deploy_mastodon a = true -> is_Some mastodon ->
  prepare_post py entry fields = inr post ->
  mastodon_toot w i
    ("New #RSEng Job! "
     +:+ nth (random_choice w i mod List.length icons)%nat icons ""
     +:+ ": " +:+ post) = Some e ->
  result (announce py w a client mastodon webhook fields i entry matrix)
  = inl (Uncaught (LibraryError e)).
Proof.
  intros Hm Hc Hpost Htoot. unfold announce.
  rewrite Hm, Hpost, (bool_decide_eq_true_2 _ Hc).
  set (choice := nth _ icons "") in *. clearbody choice. simpl.
  destruct (deploy_twitter a && bool_decide (is_Some client)); simpl.
  - destruct (create_tweet w i _); simpl; by rewrite Htoot.
  - by rewrite Htoot.
Qed.

(** C4, on a run where both services raise at every call: with Twitter
    alone the three entries are announced and the run ends with status 0;
    with Mastodon alone the first failure ends the run by an uncaught
    exception, with status 1, before the second entry and before any
    output is written. *)
Theorem mastodon_failure_ends_the_run :
  let twitter_run :=
    main Sample.python Sample.failing_social
      (Some (Sample.update "old.yaml" "three.yaml" false true false false)) in
  let mastodon_run :=
    main Sample.python Sample.failing_social
      (Some (Sample.update "old.yaml" "three.yaml" false false true false)) in
  (result twitter_run = inr tt
   ∧ exit_status (result twitter_run) = 0
   ∧ List.length (List.filter (fun e => bool_decide (is_Some (dispatch_to e)))
                    (trace twitter_run)) = 3%nat)
  ∧ result mastodon_run = inl (Uncaught (LibraryError "MastodonNetworkError"))
  ∧ exit_status (result mastodon_run) = 1
  ∧ trace mastodon_run
    = [EvRead "old.yaml"; EvRead "three.yaml";
       EvPrint ("New Job! " +:+ nth 0 icons "" +:+ NL +:+ "Name: Scientist"
                +:+ NL +:+ "http://b" +:+ NL);
       EvToot 0 ("New #RSEng Job! " +:+ nth 0 icons "" +:+ ": "
                 +:+ "Name: Scientist" +:+ NL +:+ "http://b" +:+ NL)
         (Some "MastodonNetworkError")].
Proof. vm_compute. done. Qed.

(** ** The flag [empty_matrix] *)

(** C8, on a test run over an empty updated snapshot: the run ends with
    status 0 after writing [matrix=[]] and [empty_matrix=false]. *)
Theorem empty_test_run_reports_false :
  let run :=
    main Sample.python (Sample.calm Sample.outputs)
      (Some (Sample.update "old.yaml" "none.yaml" false false false true)) in
  result run = inr tt
  ∧ exit_status (result run) = 0
  ∧ List.filter (fun e => match e with
                          | EvAppend "GITHUB_OUTPUT" _ _ => true
                          | _ => false
                          end) (trace run)
    = [EvAppend "GITHUB_OUTPUT" "/tmp/out"
         ("fields=[" +:+ Sample.encode_ascii "name" +:+ ", "
          +:+ Sample.encode_ascii "url" +:+ "]" +:+ NL);
       EvAppend "GITHUB_OUTPUT" "/tmp/out" ("matrix=[]" +:+ NL);
       EvAppend "GITHUB_OUTPUT" "/tmp/out" ("empty_matrix=false" +:+ NL)].
Proof. vm_compute. done. Qed.

(** ** The matrix *)

Lemma dict_get_set_eq {V : Type} (k : string) (v : V) (d : dict V) :
  dict_get k (dict_set k v d) = Some v.
Proof.
  induction d as [|[k' v'] d IH]; simpl.
  - by rewrite String.eqb_refl.
  - destruct (String.eqb_spec k k') as [->|Hne]; simpl.
    + by rewrite String.eqb_refl.
    + destruct (String.eqb_spec k k'); [done|]. exact IH.
Qed.

Lemma dict_get_set_ne {V : Type} (k k' : string) (v : V) (d : dict V) :
  k ≠ k' -> dict_get k (dict_set k' v d) = dict_get k d.
Proof.
  intros Hne. induction d as [|[k0 v0] d IH]; simpl.
  - by destruct (String.eqb_spec k k').
  - destruct (String.eqb_spec k' k0) as [->|Hne0]; simpl.
    + by destruct (String.eqb_spec k k0).
    + by rewrite IH.
Qed.

Lemma dict_get_None {V : Type} (k : string) (d : dict V) :
  k ∉ dict_keys d -> dict_get k d = None.
Proof.
  induction d as [|[k' v'] d IH]; simpl; [done|]. intros Hk.
  destruct (String.eqb_spec k k') as [->|Hne].
  - exfalso. apply Hk, list_elem_of_here.
  - apply IH. intros Hin. by apply Hk, list_elem_of_further.
Qed.

(** The dictionary [filtered] of lines 266 to 271 has, for every key of
    the entry, the JSON text of its value when there is one, and no item
    otherwise. *)
Lemma filter_serializable_get (py : runtime) (entry : record) (k : string) :
  NoDup (dict_keys entry) ->
  dict_get k (filter_serializable py entry)
  = dict_get k entry ≫= json_dumps py.
Proof.
  unfold filter_serializable.
  assert (∀ acc : dict string,
    NoDup (dict_keys entry) ->
    dict_get k (fold_left (fun filtered '(k0, v) =>
                             match json_dumps py v with
                             | Some s => dict_set k0 s filtered
                             | None => filtered
                             end) entry acc)
    = match dict_get k entry ≫= json_dumps py with
      | Some s => Some s
      | None => match dict_get k entry with
                | Some _ => dict_get k acc
                | None => dict_get k acc
                end
      end) as Hgen.
  { induction entry as [|[k1 v1] entry IH]; intros acc Hnd; simpl; [done|].
    apply NoDup_cons in Hnd as [Hk1 Hnd]. rewrite (IH _ Hnd).
    destruct (String.eqb_spec k k1) as [->|Hne]; simpl.
    - rewrite (dict_get_None k1 entry Hk1). simpl.
      destruct (json_dumps py v1) as [s|]; [|done].
      by rewrite dict_get_set_eq.
    - destruct (dict_get k entry ≫= json_dumps py); [done|].
      assert (dict_get k (match json_dumps py v1 with
                          | Some s => dict_set k1 s acc
                          | None => acc
                          end) = dict_get k acc) as ->.
      { destruct (json_dumps py v1); [by apply dict_get_set_ne|done]. }
      by destruct (dict_get k entry). }
  intros Hnd. rewrite (Hgen [] Hnd).
  destruct (dict_get k entry ≫= json_dumps py); [done|].
  by destruct (dict_get k entry).
Qed.

Lemma announce_result (py : runtime) (w : world) (a : args)
    client mastodon webhook fields i entry matrix matrix' :
  result (announce py w a client mastodon webhook fields i entry matrix)
  = inr matrix' ->
  matrix' = matrix ++ [filter_serializable py entry].
Proof.
  unfold announce.
  set (choice := nth _ icons ""). clearbody choice.
  destruct (prepare_post py entry fields) as [e|post]; simpl; [done|].
  destruct (deploy_twitter a && bool_decide (is_Some client));
    destruct (deploy_mastodon a && bool_decide (is_Some mastodon));
    destruct (negb (deploy a) || test a);
    destruct webhook as [url0|];
    repeat match goal with
           | |- context [create_tweet ?w ?i ?m] => destruct (create_tweet w i m)
           | |- context [mastodon_toot ?w ?i ?m] => destruct (mastodon_toot w i m)
           | |- context [requests_post ?w ?i ?u ?d] =>
               destruct (requests_post w i u d) as [?|r0]
           | |- context [bool_decide (status_code ?r ∈ ?l)] =>
               destruct (bool_decide (status_code r ∈ l))
           end; simpl; congruence.
Qed.

Lemma announce_all_result (py : runtime) (w : world) (a : args)
    client mastodon webhook fields new :
  ∀ i matrix matrix',
    result (announce_all py w a client mastodon webhook fields i new matrix)
    = inr matrix' ->
    matrix' = matrix ++ map (filter_serializable py) new.
Proof.
  induction new as [|entry rest IH]; intros i matrix matrix'; simpl.
  - intros [= <-]. by rewrite app_nil_r.
  - rewrite result_bind.
    destruct (result (announce _ _ _ _ _ _ _ _ _ _)) as [s|m1] eqn:E; [done|].
    intros H. apply IH in H. apply announce_result in E. subst.
    by rewrite <- app_assoc.
Qed.





(** * Further properties of the script *)

(** ** The differ: failure, extreme inputs, monotonicity *)

Lemma seen_values_unhashable (F : string) (A : snapshot) :
  all_hashable F A = false ->
  ∀ S0 : gset hkey, seen_values F A S0 = inl TypeError.
Proof.
  induction A as [|a A IH]; simpl; [done|]. intros H S0.
  unfold field_hashable in H.
  destruct (dict_get F a) as [v|]; [|by apply IH].
  destruct (hash_key v) as [k|]; [|done].
  apply IH. rewrite bool_decide_eq_true_2 in H by eauto. exact H.
Qed.

Lemma classify_unhashable (F : string) (P : gset hkey) (B : snapshot) :
  all_hashable F B = false ->
  ∀ new entries, classify F P B new entries = inl TypeError.
Proof.
  induction B as [|b B IH]; simpl; [done|]. intros H new entries.
  unfold field_hashable in H.
  destruct (dict_get F b) as [v|]; [|by apply IH].
  destruct (hash_key v) as [k|]; [|done].
  rewrite bool_decide_eq_true_2 in H by eauto. simpl in H.
  destruct (bool_decide (k ∉ P)); [by apply IH|].
  destruct (truthy v); by apply IH.
Qed.

(** X1: the differ raises exactly when a uniqueness value of one of the
    two snapshots cannot be hashed, and what it raises is [TypeError]. *)
Theorem find_delta_raises_iff_unhashable (F : string) (is_test : bool)
    (A B : snapshot) :
  (find_delta F is_test A B = inl TypeError
   ↔ all_hashable F A && all_hashable F B = false)
  ∧ ∀ e, find_delta F is_test A B = inl e -> e = TypeError.
Proof.
  destruct (all_hashable F A) eqn:HA.
  - destruct (all_hashable F B) eqn:HB; simpl.
    + destruct (find_delta_ok F is_test A B HA HB) as (P & _ & ->).
      split; [split; discriminate|discriminate].
    + destruct (seen_values_ok F A HA ∅) as (P & HP & _).
      unfold find_delta. rewrite HP, (classify_unhashable F P B HB).
      split; [done|]. by intros e [= <-].
  - simpl. unfold find_delta. rewrite (seen_values_unhashable F A HA).
    split; [done|]. by intros e [= <-].
Qed.

Lemma occurs_in_self (F : string) (B : snapshot) (b : record) (v : value) :
  b ∈ B -> dict_get F b = Some v -> is_Some (hash_key v) ->
  occurs_in F B v = true.
Proof.
  intros Hb Hv [k Hk]. apply (occurs_in_key F B v k Hk).
  by exists b, v.
Qed.

Lemma values_subset_incl (F : string) (B A : snapshot) :
  all_hashable F B = true -> (∀ b, b ∈ B -> b ∈ A) ->
  values_subset F B A = true.
Proof.
  intros HB Hincl. unfold values_subset. apply forallb_forall.
  intros b Hb. apply list_elem_of_In in Hb.
  unfold all_hashable in HB. rewrite forallb_forall in HB.
  pose proof (HB b (proj1 (list_elem_of_In _ _) Hb)) as Hh.
  unfold field_hashable in Hh.
  destruct (dict_get F b) as [v|] eqn:Hv; [|done].
  apply bool_decide_eq_true in Hh.
  by apply (occurs_in_self F A b v (Hincl b Hb)).
Qed.

(** X2: a snapshot compared with itself, or with a snapshot that has all
    of its records, has nothing new. *)
Theorem nothing_new_in_a_part (F : string) (A B : snapshot) :
  all_hashable F A = true ->
  (∀ b, b ∈ B -> b ∈ A) ->
  find_delta F false A B = inr [].
Proof.
  intros HA Hincl.
  assert (all_hashable F B = true) as HB.
  { unfold all_hashable in *. rewrite forallb_forall in *.
    intros b Hb. apply HA. apply list_elem_of_In, Hincl.
    by apply list_elem_of_In. }
  rewrite (find_delta_new F A B HA HB).
  by rewrite (values_subset_no_new F B A (values_subset_incl F B A HB Hincl)).
Qed.

Lemma nothing_new_in_a_part_witness :
  all_hashable "url"
    [Sample.engineer; Sample.note; Sample.scientist; Sample.analyst] = true
  ∧ find_delta "url" false
      [Sample.engineer; Sample.note; Sample.scientist; Sample.analyst]
      [Sample.scientist; Sample.engineer] = inr [].
Proof.
  split; [reflexivity|].
  apply nothing_new_in_a_part; [reflexivity|].
  intros b Hb. in_list Hb; subst b.
  - do 2 apply list_elem_of_further. apply list_elem_of_here.
  - apply list_elem_of_here.
Defined.

(** X3: against an empty original snapshot every record that has the
    uniqueness field is new, while a test run finds no record at all. *)
Theorem delta_of_a_first_run (F : string) (B : snapshot) :
  all_hashable F B = true ->
  find_delta F false [] B = inr (List.filter (has_field F) B)
  ∧ find_delta F true [] B = inr [].
Proof.
  intros HB. split.
  - rewrite (find_delta_new F [] B eq_refl HB). f_equal.
    apply filter_ext. intros b. unfold is_new, has_field.
    by destruct (dict_get F b) as [v|].
  - destruct (find_delta_test F [] B eq_refl HB) as (P & HP & ->). f_equal.
    assert (∀ l : snapshot, List.filter (known_in F P) l = []) as Hnone;
      [|apply Hnone].
    induction l as [|b l IH]; simpl; [done|].
    unfold known_in at 1. destruct (dict_get F b) as [v|]; [|done].
    destruct (hash_key v) as [k|]; [|done].
    rewrite bool_decide_eq_false_2; [done|].
    intros Hk. apply HP in Hk as (a & _ & Ha & _). by apply elem_of_nil in Ha.
Qed.

Lemma delta_of_a_first_run_witness :
  all_hashable "url" [Sample.engineer; Sample.note; Sample.draft] = true
  ∧ find_delta "url" false [] [Sample.engineer; Sample.note; Sample.draft]
    = inr [Sample.engineer; Sample.draft]
  ∧ find_delta "url" true [] [Sample.engineer; Sample.note; Sample.draft]
    = inr [].
Proof.
  split; [reflexivity|].
  destruct (delta_of_a_first_run "url"
              [Sample.engineer; Sample.note; Sample.draft] eq_refl)
    as [Hnew Htest].
  split; [rewrite Hnew; reflexivity|exact Htest].
Defined.

(** X4: a test run that compares a snapshot with itself announces its
    records that have the uniqueness field with a value that counts as
    true, all of them and in order. *)
Theorem test_delta_of_a_snapshot_with_itself (F : string) (B : snapshot) :
  all_hashable F B = true ->
  find_delta F true B B = inr (List.filter (has_true_field F) B).
Proof.
  intros HB. destruct (find_delta_test F B B HB HB) as (P & HP & ->). f_equal.
  apply filter_ext_in. intros b Hb. unfold known_in, has_true_field.
  pose proof HB as Hh. unfold all_hashable in Hh.
  rewrite forallb_forall in Hh. specialize (Hh b Hb).
  unfold field_hashable in Hh.
  destruct (dict_get F b) as [v|] eqn:Hv; [|done].
  apply bool_decide_eq_true in Hh as [k Hk]. rewrite Hk.
  rewrite bool_decide_eq_true_2; [done|].
  apply HP. exists b, v. by rewrite list_elem_of_In.
Qed.

Lemma test_delta_of_a_snapshot_with_itself_witness :
  all_hashable "url" [Sample.engineer; Sample.note; Sample.draft] = true
  ∧ find_delta "url" true [Sample.engineer; Sample.note; Sample.draft]
      [Sample.engineer; Sample.note; Sample.draft]
    = inr [Sample.engineer].
Proof.
  split; [reflexivity|].
  rewrite (test_delta_of_a_snapshot_with_itself "url"
             [Sample.engineer; Sample.note; Sample.draft] eq_refl).
  reflexivity.
Defined.

Lemma filter_sublist_impl {X : Type} (f g : X -> bool) (l : list X) :
  (∀ x, f x = true -> g x = true) ->
  sublist (List.filter f l) (List.filter g l).
Proof.
  intros Himpl. induction l as [|x l IH]; simpl; [constructor|].
  destruct (f x) eqn:Hf.
  - rewrite (Himpl x Hf). by constructor.
  - destruct (g x); [by constructor|done].
Qed.

Lemma occurs_in_mono (F : string) (A1 A2 : snapshot) (v : value) :
  (∀ a, a ∈ A1 -> a ∈ A2) ->
  occurs_in F A1 v = true -> occurs_in F A2 v = true.
Proof.
  intros Hincl. unfold occurs_in. rewrite !existsb_exists.
  intros (a & Ha & H). exists a. split; [|done].
  by apply list_elem_of_In, Hincl, list_elem_of_In.
Qed.

(** X5: more records in the original snapshot never make more records
    new: the Delta against a larger original is the Delta against the
    smaller one with some records left out. *)
Theorem delta_shrinks_as_the_original_grows (F : string)
    (A1 A2 B : snapshot) :
  all_hashable F A1 = true -> all_hashable F A2 = true ->
  all_hashable F B = true ->
  (∀ a, a ∈ A1 -> a ∈ A2) ->
  ∃ delta1 delta2,
    find_delta F false A1 B = inr delta1
    ∧ find_delta F false A2 B = inr delta2
    ∧ sublist delta2 delta1.
Proof.
  intros H1 H2 HB Hincl.
  exists (List.filter (is_new F A1) B), (List.filter (is_new F A2) B).
  rewrite !find_delta_new by done. split; [done|]. split; [done|].
  apply filter_sublist_impl. intros b. unfold is_new.
  destruct (dict_get F b) as [v|]; [|done].
  rewrite !negb_true_iff. intros Hnew. apply not_true_is_false.
  intros Hocc. by rewrite (occurs_in_mono F A1 A2 v Hincl Hocc) in Hnew.
Qed.

Lemma delta_shrinks_as_the_original_grows_witness :
  ∃ delta1 delta2,
    find_delta "url" false [Sample.engineer]
      [Sample.engineer; Sample.scientist; Sample.analyst] = inr delta1
    ∧ find_delta "url" false [Sample.engineer; Sample.analyst]
        [Sample.engineer; Sample.scientist; Sample.analyst] = inr delta2
    ∧ sublist delta2 delta1.
Proof.
  apply (delta_shrinks_as_the_original_grows "url" [Sample.engineer]
           [Sample.engineer; Sample.analyst]); try reflexivity.
  intros a Ha. in_list Ha. subst a. apply list_elem_of_here.
Defined.

(** X6: no record is both new and in the list kept for test runs, and a
    record without the uniqueness field is in neither. *)
Theorem new_and_test_lists_are_apart (F : string) (A B : snapshot)
    (new entries : list record) :
  find_delta F false A B = inr new ->
  find_delta F true A B = inr entries ->
  (∀ r, r ∈ new -> r ∉ entries)
  ∧ (∀ r, dict_get F r = None -> (r ∉ new) ∧ (r ∉ entries)).
Proof.
  intros Hnew Htest.
  destruct (all_hashable F A) eqn:HA;
    [|unfold find_delta in Hnew;
      by rewrite (seen_values_unhashable F A HA) in Hnew].
  destruct (all_hashable F B) eqn:HB.
  2:{ destruct (seen_values_ok F A HA ∅) as (P & HP & _).
      unfold find_delta in Hnew.
      by rewrite HP, (classify_unhashable F P B HB) in Hnew. }
  destruct (find_delta_ok F false A B HA HB) as (P & HP & Hn).
  destruct (seen_values_ok F A HA ∅) as (P' & HP' & _).
  unfold find_delta in Hnew, Htest.
  rewrite HP', (classify_ok F P' B HB) in Hnew, Htest. simpl in Hnew, Htest.
  injection Hnew as <-. injection Htest as <-.
  split; intros r; rewrite !list_elem_of_In, !filter_In;
    unfold fresh_in, known_in.
  - intros [_ Hf] [_ Hk]. destruct (dict_get F r) as [v|]; [|done].
    destruct (hash_key v) as [k|]; [|done].
    apply andb_true_iff in Hk as [Hk _].
    apply bool_decide_eq_true in Hf, Hk. done.
  - intros ->. split; intros [_ ?]; done.
Qed.

Lemma new_and_test_lists_are_apart_witness :
  Sample.scientist ∈ [Sample.scientist; Sample.analyst]
  ∧ Sample.scientist ∉ [Sample.engineer].
Proof.
  assert (Sample.scientist ∈ [Sample.scientist; Sample.analyst]) as Hin
    by apply list_elem_of_here.
  split; [exact Hin|].
  destruct (new_and_test_lists_are_apart "url" [Sample.engineer]
              [Sample.engineer; Sample.note; Sample.scientist; Sample.analyst]
              [Sample.scientist; Sample.analyst] [Sample.engineer])
    as [Hapart _]; [vm_compute; reflexivity..|].
  exact (Hapart _ Hin).
Defined.

(** ** The list of keys *)

Lemma split_commas_plain (k : string) :
  contains "," k = false -> split_commas k = [k].
Proof.
  induction k as [|c k IH]; simpl; [done|]. intros H.
  apply orb_false_iff in H as [Hc Hk]. rewrite Hc, (IH Hk). done.
Qed.

Lemma split_commas_cons (k rest : string) :
  contains "," k = false ->
  split_commas (k +:+ String "," rest) = k :: split_commas rest.
Proof.
  induction k as [|c k IH]; simpl; [done|]. intros H.
  apply orb_false_iff in H as [Hc Hk]. rewrite Hc, (IH Hk). done.
Qed.

Lemma split_commas_concat (k : string) (l : list string) :
  Forall (fun k => contains "," k = false) (k :: l) ->
  split_commas (String.concat "," (k :: l)) = k :: l.
Proof.
  revert k. induction l as [|k' l IH]; intros k Hall.
  - simpl. apply split_commas_plain. by inversion Hall.
  - inversion Hall as [|? ? Hk Hl]; subst.
    change (String.concat "," (k :: k' :: l))
      with (k +:+ String "," (String.concat "," (k' :: l))).
    rewrite (split_commas_cons _ _ Hk), (IH k' Hl). done.
Qed.

Lemma split_commas_no_comma (s : string) :
  Forall (fun k => contains "," k = false) (split_commas s).
Proof.
  induction s as [|c s IH]; simpl; [by repeat constructor|].
  destruct (Ascii.eqb_spec c ",") as [->|Hne]; [by constructor|].
  destruct (split_commas s) as [|piece pieces].
  { constructor; [|constructor]. simpl. rewrite orb_false_r.
    by apply Ascii.eqb_neq. }
  inversion IH; subst. constructor; [|done]. simpl.
  apply orb_false_iff. split; [|done]. by apply Ascii.eqb_neq.
Qed.

(** X7: the keys read from [--keys] are never empty and never contain a
    comma. *)
Theorem parsed_keys_are_plain (text : string) :
  Forall plain_key (parse_keys text).
Proof.
  unfold parse_keys. apply Forall_forall. intros k Hk.
  apply list_elem_of_filter in Hk as [Hne Hk]. split; [done|].
  pose proof (split_commas_no_comma text) as Hall.
  rewrite Forall_forall in Hall. by apply Hall.
Qed.

(** X8: joining plain keys with commas and reading them back gives the
    same keys in the same order; so does reading twice. *)
Theorem parse_keys_of_joined_keys (l : list string) :
  Forall plain_key l ->
  parse_keys (String.concat "," l) = l.
Proof.
  intros Hall. unfold parse_keys. destruct l as [|k l]; [done|].
  rewrite split_commas_concat.
  - induction Hall as [|k0 l0 [Hne _] _ IH]; [done|].
    rewrite filter_cons_True by done. by rewrite IH.
  - eapply Forall_impl; [exact Hall|]. by intros k0 [_ ?].
Qed.

Lemma parse_keys_of_joined_keys_witness :
  Forall plain_key ["name"; "location"; "url"]
  ∧ parse_keys "name,location,url" = ["name"; "location"; "url"].
Proof.
  assert (Forall plain_key ["name"; "location"; "url"]) as Hall.
  { repeat constructor; discriminate. }
  split; [exact Hall|].
  exact (parse_keys_of_joined_keys ["name"; "location"; "url"] Hall).
Defined.

(** ** The formatter *)

Lemma append_empty_r (s : string) : s +:+ "" = s.
Proof.
  induction s as [|c s IH]; [done|].
  change (String c (s +:+ "") = String c s). by rewrite IH.
Qed.

Lemma append_assoc (s1 s2 s3 : string) :
  (s1 +:+ s2) +:+ s3 = s1 +:+ s2 +:+ s3.
Proof.
  induction s1 as [|c s1 IH]; [done|].
  change (String c ((s1 +:+ s2) +:+ s3) = String c (s1 +:+ s2 +:+ s3)).
  by rewrite IH.
Qed.

Lemma concat_empty_cons (x : string) (l : list string) :
  String.concat "" (x :: l) = x +:+ String.concat "" l.
Proof.
  destruct l as [|y l]; [|reflexivity].
  change (x = x +:+ ""). by rewrite append_empty_r.
Qed.

Lemma prepare_post_from_lines (py : runtime) (entry : record)
    (keys : list string) :
  (∀ key v, key ∈ keys -> dict_get key entry = Some v -> is_str v = true) ->
  ∀ post,
    prepare_post_from py post entry keys
    = inr (post +:+ String.concat "" (map (post_line py entry) keys)).
Proof.
  induction keys as [|key keys IH]; intros Hstr post.
  - simpl. by rewrite append_empty_r.
  - rewrite map_cons, concat_empty_cons. simpl. unfold post_line at 1.
    assert (∀ key' v, key' ∈ keys -> dict_get key' entry = Some v ->
                      is_str v = true) as Hrest.
    { intros key' v Hin. apply Hstr. by apply list_elem_of_further. }
    destruct (dict_get key entry) as [v|] eqn:Hv; [|by rewrite IH].
    pose proof (Hstr key v (list_elem_of_here _ _) Hv) as Hs.
    destruct v; try discriminate.
    destruct (String.eqb key "url"); rewrite IH by done;
      by rewrite !append_assoc.
Qed.

(** X9: when every requested key that the entry has holds text, the post
    is the lines of the requested keys in the requested order: the bare
    value and a newline for [url], the capitalized key, a colon and the
    value otherwise, and nothing for a key the entry does not have. *)
Theorem prepare_post_is_its_lines (py : runtime) (entry : record)
    (keys : list string) :
  (∀ key v, key ∈ keys -> dict_get key entry = Some v -> is_str v = true) ->
  prepare_post py entry keys
  = inr (String.concat "" (map (post_line py entry) keys)).
Proof.
  intros Hstr. unfold prepare_post.
  by rewrite (prepare_post_from_lines py entry keys Hstr "").
Qed.

Lemma prepare_post_is_its_lines_witness :
  prepare_post Sample.python Sample.analyst ["name"; "location"; "url"]
  = inr ("Name: Analyst" +:+ NL +:+ "http://c" +:+ NL).
Proof.
  rewrite (prepare_post_is_its_lines Sample.python Sample.analyst
             ["name"; "location"; "url"]); [reflexivity|].
  intros key v Hin Hv. in_list Hin; subst key; vm_compute in Hv;
    try discriminate; by injection Hv as <-.
Defined.

Lemma prepare_post_from_raises (py : runtime) (entry : record)
    (keys : list string) :
  ∀ post,
    (∃ key v, key ∈ keys ∧ dict_get key entry = Some v ∧ is_str v = false) ->
    prepare_post_from py post entry keys = inl TypeError.
Proof.
  induction keys as [|key keys IH]; intros post (k & v & Hin & Hv & Hs).
  { by apply elem_of_nil in Hin. }
  simpl. apply elem_of_cons in Hin as [->|Hin].
  - rewrite Hv. by destruct v.
  - assert (∃ key v, key ∈ keys ∧ dict_get key entry = Some v
                     ∧ is_str v = false) as Hex by eauto.
    destruct (dict_get key entry) as [v'|]; [|by apply IH].
    destruct v'; try done. destruct (String.eqb key "url"); by apply IH.
Qed.

(** X10: [prepare_post] raises exactly when a requested key of the entry
    holds something that is not text (a date, a number, [None]); what it
    raises is [TypeError]. *)
Theorem prepare_post_raises_iff_not_text (py : runtime) (entry : record)
    (keys : list string) :
  (prepare_post py entry keys = inl TypeError
   ↔ ∃ key v, key ∈ keys ∧ dict_get key entry = Some v ∧ is_str v = false)
  ∧ ∀ e, prepare_post py entry keys = inl e -> e = TypeError.
Proof.
  assert ((∃ key v, key ∈ keys ∧ dict_get key entry = Some v
                    ∧ is_str v = false)
          ∨ ∀ key v, key ∈ keys -> dict_get key entry = Some v ->
                     is_str v = true) as [Hbad|Hgood].
  { induction keys as [|key keys IH].
    - right. intros key v Hin. by apply elem_of_nil in Hin.
    - destruct IH as [(k & v & Hin & Hv & Hs)|IH].
      + left. exists k, v. split; [by apply list_elem_of_further|done].
      + destruct (dict_get key entry) as [v|] eqn:Hv.
        * destruct (is_str v) eqn:Hs.
          -- right. intros k v' Hin Hv'.
             apply elem_of_cons in Hin as [->|Hin]; [congruence|eauto].
          -- left. exists key, v. split; [apply list_elem_of_here|done].
        * right. intros k v' Hin Hv'.
          apply elem_of_cons in Hin as [->|Hin]; [congruence|eauto]. }
  - unfold prepare_post.
    rewrite (prepare_post_from_raises py entry keys "" Hbad).
    split; [done|]. by intros e [= <-].
  - rewrite (prepare_post_is_its_lines py entry keys Hgood).
    split; [|done]. split; [done|].
    intros (k & v & Hin & Hv & Hs). by rewrite (Hgood k v Hin Hv) in Hs.
Qed.

(** ** Credentials *)

(** X11: the variables are examined in the order of the list, and the one
    named in the message is the first that is missing or empty. *)
Theorem first_missing_variable_is_named (w : world) (service : string)
    (before after : list string) (v : string) :
  all_set w before = true ->
  unset (os_environ w !! v) = true ->
  require_envars w service (before ++ v :: after)
  = sys_exit (v +:+ " is not set, and required when " +:+ service
              +:+ " deploy is true!").
Proof.
  intros Hall Hv. induction before as [|b before IH]; simpl.
  - by rewrite Hv.
  - simpl in Hall. apply andb_true_iff in Hall as [Hb Hall].
    apply negb_true_iff in Hb. rewrite Hb, (IH Hall). done.
Qed.

Lemma first_missing_variable_is_named_witness :
  let w := Sample.calm [("TWITTER_API_KEY", "k");
                        ("TWITTER_API_SECRET", "");
                        ("TWITTER_CONSUMER_KEY", "ck")] in
  get_twitter_client w
  = sys_exit "TWITTER_API_SECRET is not set, and required when twitter deploy is true!".
Proof.
  intros w. unfold get_twitter_client.
  change twitter_envars
    with (["TWITTER_API_KEY"]
          ++ "TWITTER_API_SECRET"
             :: ["TWITTER_CONSUMER_KEY"; "TWITTER_CONSUMER_SECRET"]).
  rewrite (first_missing_variable_is_named w "twitter" ["TWITTER_API_KEY"]
             ["TWITTER_CONSUMER_KEY"; "TWITTER_CONSUMER_SECRET"]
             "TWITTER_API_SECRET"); reflexivity.
Defined.

(** X12: [get_twitter_client] gives a client exactly when the four
    variables are set and not empty; the client takes its consumer key
    and secret from [TWITTER_CONSUMER_KEY] and [TWITTER_CONSUMER_SECRET],
    its access token from [TWITTER_API_KEY] and its access token secret
    from [TWITTER_API_SECRET].  Otherwise the run exits with a message and
    nothing else happens. *)
Theorem twitter_client_of_the_environment (w : world) :
  (all_set w twitter_envars = true ->
   get_twitter_client w
   = ret {| consumer_key := envar w "TWITTER_CONSUMER_KEY";
            consumer_secret := envar w "TWITTER_CONSUMER_SECRET";
            access_token := envar w "TWITTER_API_KEY";
            access_token_secret := envar w "TWITTER_API_SECRET" |})
  ∧ (all_set w twitter_envars = false ->
     ∃ v, v ∈ twitter_envars ∧ unset (os_environ w !! v) = true
          ∧ get_twitter_client w
            = sys_exit (v +:+ " is not set, and required when twitter deploy is true!")).
Proof.
  split; intros H; unfold get_twitter_client.
  - by rewrite (require_envars_set w "twitter" twitter_envars H).
  - destruct (require_envars_missing w "twitter" twitter_envars H)
      as (v & Hin & Hun & Heq).
    exists v. split; [done|]. split; [done|]. by rewrite Heq.
Qed.

Lemma twitter_client_of_the_environment_witness :
  get_twitter_client (Sample.calm Sample.credentials)
  = ret {| consumer_key := "ck"; consumer_secret := "cs";
           access_token := "k"; access_token_secret := "s" |}.
Proof.
  rewrite (proj1 (twitter_client_of_the_environment
                    (Sample.calm Sample.credentials))); reflexivity.
Defined.

(** X13: [get_mastodon_client] gives a client exactly when
    [MASTODON_ACCESS_TOKEN] and [MASTODON_API_BASE_URL] are set and not
    empty, with these two values; otherwise the run exits with a message
    and nothing else happens. *)
Theorem mastodon_client_of_the_environment (w : world) :
  (all_set w mastodon_envars = true ->
   get_mastodon_client w
   = ret {| mastodon_access_token := envar w "MASTODON_ACCESS_TOKEN";
            api_base_url := envar w "MASTODON_API_BASE_URL" |})
  ∧ (all_set w mastodon_envars = false ->
     ∃ v, v ∈ mastodon_envars ∧ unset (os_environ w !! v) = true
          ∧ get_mastodon_client w
            = sys_exit (v +:+ " is not set, and required when mastodon deploy is true!")).
Proof.
  split; intros H; unfold get_mastodon_client.
  - by rewrite (require_envars_set w "mastodon" mastodon_envars H).
  - destruct (require_envars_missing w "mastodon" mastodon_envars H)
      as (v & Hin & Hun & Heq).
    exists v. split; [done|]. split; [done|]. by rewrite Heq.
Qed.

Lemma mastodon_client_of_the_environment_witness :
  ∃ v, v ∈ mastodon_envars
       ∧ get_mastodon_client
           (Sample.calm [("MASTODON_ACCESS_TOKEN", "t")])
         = sys_exit (v +:+ " is not set, and required when mastodon deploy is true!").
Proof.
  destruct (proj2 (mastodon_client_of_the_environment
                     (Sample.calm [("MASTODON_ACCESS_TOKEN", "t")])))
    as (v & Hin & _ & Heq); [reflexivity|].
  exists v. split; [exact Hin|exact Heq].
Defined.

(** ** JSON *)

(** Induction on values that reaches the members of lists and
    dictionaries. *)
Lemma value_nested_ind (P : value -> Prop) :
  P VNone -> (∀ b, P (VBool b)) -> (∀ z, P (VInt z)) -> (∀ s, P (VStr s)) ->
  (∀ y m d, P (VDate y m d)) ->
  (∀ l, Forall P l -> P (VList l)) ->
  (∀ d, Forall (fun kv => P (snd kv)) d -> P (VDict d)) ->
  ∀ v, P v.
Proof.
  intros HNone HBool HInt HStr HDate HList HDict.
  fix IH 1. intros [|b|z|s|y m d|l|d].
  - exact HNone.
  - apply HBool.
  - apply HInt.
  - apply HStr.
  - apply HDate.
  - apply HList. induction l as [|x l IHl]; constructor; [apply IH|exact IHl].
  - apply HDict. induction d as [|[k x] d IHd]; constructor;
      [apply IH|exact IHd].
Qed.

Lemma json_dumps_of_a_date (py : runtime) (v : value) :
  contains_date v = true -> json_dumps py v = None.
Proof.
  induction v as [| | | | |l IHl|d IHd] using value_nested_ind; simpl;
    try discriminate; try done.
  - intros Hl.
    assert ((fix each (l : list value) : option (list string) :=
               match l with
               | [] => Some []
               | x :: l' =>
                   s ← json_dumps py x; ss ← each l'; Some (s :: ss)
               end) l = None) as ->; [|done].
    induction IHl as [|x l Hx _ IH]; simpl in Hl |- *; [done|].
    apply orb_true_iff in Hl as [Hl|Hl].
    + by rewrite (Hx Hl).
    + rewrite (IH Hl). by destruct (json_dumps py x).
  - intros Hd.
    assert ((fix each (d : list (string * value)) : option (list string) :=
               match d with
               | [] => Some []
               | (k, x) :: d' =>
                   s ← json_dumps py x; ss ← each d';
                   Some ((encode_basestring_ascii py k +:+ ": " +:+ s) :: ss)
               end) d = None) as ->; [|done].
    induction IHd as [|[k x] d Hx _ IH]; simpl in Hd |- *; [done|].
    simpl in Hx. apply orb_true_iff in Hd as [Hd|Hd].
    + by rewrite (Hx Hd).
    + rewrite (IH Hd). by destruct (json_dumps py x).
Qed.

(** X14: a field whose value is a date, or has a date inside a list or a
    dictionary at any depth, has no item in the dictionary that lines 266
    to 271 build for the matrix. *)
Theorem fields_with_a_date_are_left_out (py : runtime) (entry : record)
    (k : string) (v : value) :
  NoDup (dict_keys entry) ->
  dict_get k entry = Some v ->
  contains_date v = true ->
  dict_get k (filter_serializable py entry) = None.
Proof.
  intros Hnd Hv Hdate.
  rewrite (filter_serializable_get py entry k Hnd), Hv. simpl.
  by apply json_dumps_of_a_date.
Qed.

Lemma dict_set_fresh {V : Type} (k : string) (v : V) (d : dict V) :
  k ∉ dict_keys d -> dict_set k v d = d ++ [(k, v)].
Proof.
  induction d as [|[k' v'] d IH]; simpl; [done|]. intros Hk.
  destruct (String.eqb_spec k k') as [->|Hne].
  - exfalso. apply Hk, list_elem_of_here.
  - rewrite IH; [done|]. intros Hin. by apply Hk, list_elem_of_further.
Qed.

Lemma filter_serializable_from (py : runtime) (entry : record) :
  ∀ acc : dict string,
    NoDup (dict_keys acc ++ dict_keys entry) ->
    fold_left (fun filtered '(k, v) =>
                 match json_dumps py v with
                 | Some s => dict_set k s filtered
                 | None => filtered
                 end) entry acc
    = acc ++ serialized_items py entry.
Proof.
  induction entry as [|[k v] entry IH]; intros acc Hnd; simpl.
  { by rewrite app_nil_r. }
  unfold serialized_items. simpl.
  apply NoDup_app in Hnd as (Hacc & Hdisj & Hent).
  apply NoDup_cons in Hent as [Hk Hent].
  assert (k ∉ dict_keys acc) as Hfresh.
  { intros Hin. apply (Hdisj k Hin), list_elem_of_here. }
  destruct (json_dumps py v) as [s|]; simpl.
  - rewrite (dict_set_fresh k s acc Hfresh), IH.
    + by rewrite <- app_assoc.
    + unfold dict_keys. rewrite map_app. simpl.
      apply NoDup_app. split; [|split; [|done]].
      * apply NoDup_app. split; [done|]. split; [|apply NoDup_singleton].
        intros x Hx Hx'. apply list_elem_of_singleton in Hx' as ->. done.
      * intros x Hx Hx'. apply elem_of_app in Hx as [Hx|Hx].
        -- apply (Hdisj x Hx). by apply list_elem_of_further.
        -- apply list_elem_of_singleton in Hx as ->. done.
  - apply IH. apply NoDup_app. split; [done|]. split; [|done].
    intros x Hx Hx'. apply (Hdisj x Hx). by apply list_elem_of_further.
Qed.

(** X15: the dictionary added to the matrix for an entry has the items of
    the entry whose value has a JSON text, with that text as value, in the
    order of the entry; so its keys are keys of the entry, each once. *)
Theorem filter_serializable_keeps_order (py : runtime) (entry : record) :
  NoDup (dict_keys entry) ->
  filter_serializable py entry = serialized_items py entry
  ∧ sublist (dict_keys (filter_serializable py entry)) (dict_keys entry)
  ∧ NoDup (dict_keys (filter_serializable py entry)).
Proof.
  intros Hnd.
  assert (filter_serializable py entry = serialized_items py entry) as Heq.
  { unfold filter_serializable. by rewrite filter_serializable_from. }
  assert (sublist (dict_keys (serialized_items py entry)) (dict_keys entry))
    as Hsub.
  { clear. induction entry as [|[k v] entry IH]; [constructor|].
    unfold serialized_items. simpl.
    destruct (json_dumps py v); simpl; by constructor. }
  rewrite Heq. split; [done|]. split; [done|].
  by eapply sublist_NoDup.
Qed.

Lemma filter_serializable_keeps_order_witness :
  filter_serializable Sample.python Sample.analyst
  = [("name", Sample.encode_ascii "Analyst");
     ("url", Sample.encode_ascii "http://c")].
Proof.
  destruct (filter_serializable_keeps_order Sample.python Sample.analyst)
    as (Heq & _ & _).
  - unfold Sample.analyst, dict_keys. simpl.
    repeat (apply NoDup_cons_2; [intros H; in_list H; discriminate|]).
    apply NoDup_nil_2.
  - rewrite Heq. reflexivity.
Defined.

(** ** Runs without a channel, and the calls of a run that ends well *)

Lemma announce_quiet (py : runtime) (w : world) (a : args)
    client mastodon webhook fields i entry matrix :
  deploy a = false -> deploy_twitter a = false -> deploy_mastodon a = false ->
  quiet (trace (announce py w a client mastodon webhook fields i entry matrix)).
Proof.
  intros Hd Ht Hm. unfold quiet, announce. rewrite Hd, Ht, Hm.
  cbn [andb negb orb]. repeat trace_step; done.
Qed.

(** X16: a run with none of the three deploy flags makes no call to any
    service, whatever the environment and the snapshots are. *)
Theorem run_without_flags_calls_nothing (py : runtime) (w : world) (a : args) :
  deploy a = false -> deploy_twitter a = false -> deploy_mastodon a = false ->
  quiet (trace (main py w (Some a))).
Proof.
  intros Hd Ht Hm. unfold quiet. apply main_local; try done.
  intros. by apply announce_quiet.
Qed.

Lemma run_without_flags_calls_nothing_witness :
  let run :=
    main Sample.python (Sample.calm (Sample.outputs ++ Sample.credentials))
      (Some (Sample.update "old.yaml" "three.yaml" false false false false)) in
  quiet (trace run) ∧ result run = inr tt.
Proof.
  intros run. split; [|vm_compute; reflexivity].
  apply run_without_flags_calls_nothing; reflexivity.
Defined.

Lemma posts_app (t1 t2 : list event) : posts (t1 ++ t2) = posts t1 ++ posts t2.
Proof. unfold posts. apply omap_app. Qed.

Lemma announce_posts_once (py : runtime) (w : world) (a : args)
    client mastodon webhook fields i entry matrix matrix' :
  deploy a = true -> test a = false ->
  result (announce py w a client mastodon webhook fields i entry matrix)
  = inr matrix' ->
  ∃ answer,
    posts (trace (announce py w a client mastodon webhook fields
                    i entry matrix)) = [(i, answer)]
    ∧ accepted answer.
Proof.
  intros Hd Ht. unfold announce, accepted. rewrite Hd, Ht.
  set (choice := nth _ icons ""). clearbody choice.
  destruct (prepare_post py entry fields) as [e|post]; simpl; [done|].
  destruct (deploy_twitter a && bool_decide (is_Some client));
    destruct (deploy_mastodon a && bool_decide (is_Some mastodon));
    destruct webhook as [url0|];
    repeat match goal with
           | |- context [create_tweet ?w ?i ?m] => destruct (create_tweet w i m)
           | |- context [mastodon_toot ?w ?i ?m] => destruct (mastodon_toot w i m)
           | |- context [requests_post ?w ?i ?u ?d] =>
               destruct (requests_post w i u d) as [?|r0]
           | |- context [bool_decide (status_code ?r ∈ ?l)] =>
               destruct (bool_decide_reflect (status_code r ∈ l)) as [Hok|Hko]
           end; simpl; try done.
  all: intros _; eexists; (split; [reflexivity|]); exists r0;
    (split; [reflexivity|]); in_list Hok; auto.
Qed.

Lemma announce_all_posts (py : runtime) (w : world) (a : args)
    client mastodon webhook fields new :
  deploy a = true -> test a = false ->
  ∀ i matrix matrix',
    result (announce_all py w a client mastodon webhook fields i new matrix)
    = inr matrix' ->
    map fst (posts (trace (announce_all py w a client mastodon webhook fields
                             i new matrix)))
    = seq i (List.length new)
    ∧ Forall (fun p => accepted (snd p))
        (posts (trace (announce_all py w a client mastodon webhook fields
                         i new matrix))).
Proof.
  intros Hd Ht. induction new as [|entry rest IH]; intros i matrix matrix';
    simpl; [by split; [|constructor]|].
  rewrite result_bind, trace_bind.
  destruct (result (announce _ _ _ _ _ _ _ _ _ _)) as [s|m1] eqn:E; [done|].
  intros Hrest.
  destruct (announce_posts_once py w a _ _ _ _ _ _ _ _ Hd Ht E)
    as (answer & Hone & Hacc).
  destruct (IH (S i) m1 matrix' Hrest) as [Hidx Hall].
  rewrite posts_app, Hone. simpl. rewrite Hidx. split; [done|].
  by constructor.
Qed.

(** X17: on a run that reaches the end of [main] with the chat flag and
    outside test mode, the chat webhook is called once for each record of
    the Delta, in the order of the Delta, and every answer has status 200
    or 201. *)
Theorem one_post_for_each_record (py : runtime) (w : world) (a : args) :
  deploy a = true -> test a = false ->
  result (main py w (Some a)) = inr tt ->
  ∃ fa fb A B fields delta,
    loaded w a fa fb A B fields
    ∧ find_delta (unique a) false A B = inr delta
    ∧ map fst (posts (trace (main py w (Some a))))
      = seq 0 (List.length delta)
    ∧ Forall (fun p => accepted (snd p)) (posts (trace (main py w (Some a)))).
Proof.
  intros Hd Ht Hres.
  destruct (main_cases py w a)
    as [[_ Hs]|(fa & fb & A & B & fields & new & Hl & _ & Hdelta & Hmain)].
  { by rewrite Hres in Hs. }
  rewrite Ht in Hdelta. exists fa, fb, A, B, fields, new.
  split; [done|]. split; [done|].
  rewrite Hmain in Hres |- *. rewrite result_bind in Hres. simpl in Hres.
  rewrite trace_bind. simpl. unfold after_diff in *. rewrite Ht in *.
  assert (result (deliver py w a (twitter_of w a) (mastodon_of w a) fields new)
          = inr tt
          ∧ match new with
            | [] => no_new_jobs w
            | _ :: _ => deliver py w a (twitter_of w a) (mastodon_of w a)
                          fields new
            end
            = deliver py w a (twitter_of w a) (mastodon_of w a) fields new)
    as [Hdel ->].
  { destruct new; [|done]. exfalso. revert Hres.
    unfold no_new_jobs. rewrite !result_bind. simpl.
    repeat (destruct (result (set_env_and_output _ _ _)) as [?|[]]; [done|]).
    done. }
  clear Hres. revert Hdel. unfold deliver.
  rewrite !result_bind, !trace_bind.
  destruct (unset _ && deploy a); [done|]. simpl.
  destruct (result (announce_all _ _ _ _ _ _ _ _ _ _)) as [s|matrix] eqn:E;
    [done|].
  destruct (announce_all_posts py w a _ _ _ _ _ Hd Ht _ _ _ E) as [Hidx Hall].
  intros Hrest.
  assert (∀ t, Forall (fun e => is_post e = false) t -> posts t = []) as Hnone.
  { induction 1 as [|e t He _ IH]; [done|]. simpl.
    destruct e; try done. }
  rewrite posts_app.
  match goal with
  | |- context [posts (trace ?aa) ++ posts (trace ?rest)] =>
      assert (posts (trace rest) = []) as ->
  end.
  { apply Hnone.
    repeat (trace_step; try (by apply set_env_and_output_local)).
    simpl. by repeat constructor. }
  by rewrite app_nil_r.
Qed.

Lemma one_post_for_each_record_witness :
  let run :=
    main Sample.python (Sample.calm (Sample.outputs ++ Sample.credentials))
      (Some (Sample.update "old.yaml" "three.yaml" true false false false)) in
  result run = inr tt
  ∧ map fst (posts (trace run)) = [0; 1; 2]%nat.
Proof.
  intros run.
  assert (result run = inr tt) as Hres by (vm_compute; reflexivity).
  split; [exact Hres|].
  destruct (one_post_for_each_record Sample.python
              (Sample.calm (Sample.outputs ++ Sample.credentials))
              (Sample.update "old.yaml" "three.yaml" true false false false)
              eq_refl eq_refl Hres)
    as (fa & fb & A & B & fields & delta & Hl & Hd & Hidx & _).
  destruct Hl as (Ho & Hu & _ & _ & HA & HB & _).
  injection Ho as <-. injection Hu as <-.
  vm_compute in HA, HB. injection HA as <-. injection HB as <-.
  vm_compute in Hd. injection Hd as <-. exact Hidx.
Defined.

(** ** The outputs of a run that ends well *)

Lemma appended_app (var : string) (t1 t2 : list event) :
  appended var (t1 ++ t2) = appended var t1 ++ appended var t2.
Proof. unfold appended. apply omap_app. Qed.

Lemma appended_none (var : string) (t : list event) :
  Forall (fun e => is_append e = false) t -> appended var t = [].
Proof.
  induction 1 as [|e t He _ IH]; [done|]. simpl. by destruct e.
Qed.

Lemma no_numbered_exit_bind {A B : Type} (m : Run A) (k : A -> Run B) :
  no_numbered_exit m -> (∀ x, no_numbered_exit (k x)) ->
  no_numbered_exit (bind m k).
Proof.
  intros Hm Hk code. rewrite result_bind.
  destruct (result m) as [s|x] eqn:E; [|apply Hk].
  intros [= ->]. by apply (Hm code).
Qed.

Lemma set_env_and_output_no_exit (w : world) (name value : string) :
  no_numbered_exit (set_env_and_output w name value).
Proof.
  intros code. unfold set_env_and_output, append_to.
  destruct (os_environ w !! "GITHUB_ENV"); [|done].
  by destruct (os_environ w !! "GITHUB_OUTPUT").
Qed.

Lemma announce_no_exit (py : runtime) (w : world) (a : args)
    client mastodon webhook fields i entry matrix :
  no_numbered_exit
    (announce py w a client mastodon webhook fields i entry matrix).
Proof.
  intros code. unfold announce.
  set (choice := nth _ icons ""). clearbody choice.
  destruct (prepare_post py entry fields) as [e|post]; simpl; [done|].
  destruct (deploy_twitter a && bool_decide (is_Some client));
    destruct (deploy_mastodon a && bool_decide (is_Some mastodon));
    destruct (negb (deploy a) || test a);
    destruct webhook as [url0|];
    repeat match goal with
           | |- context [create_tweet ?w ?i ?m] => destruct (create_tweet w i m)
           | |- context [mastodon_toot ?w ?i ?m] => destruct (mastodon_toot w i m)
           | |- context [requests_post ?w ?i ?u ?d] =>
               destruct (requests_post w i u d) as [?|r0]
           | |- context [bool_decide (status_code ?r ∈ ?l)] =>
               destruct (bool_decide (status_code r ∈ l))
           end; simpl; done.
Qed.

Lemma announce_all_no_exit (py : runtime) (w : world) (a : args)
    client mastodon webhook fields new :
  ∀ i matrix,
    no_numbered_exit
      (announce_all py w a client mastodon webhook fields i new matrix).
Proof.
  induction new as [|entry rest IH]; intros i matrix; simpl; [done|].
  apply no_numbered_exit_bind; [apply announce_no_exit|]. intros m. apply IH.
Qed.

Lemma deliver_no_exit (py : runtime) (w : world) (a : args)
    client mastodon fields new :
  no_numbered_exit (deliver py w a client mastodon fields new).
Proof.
  unfold deliver.
  repeat (apply no_numbered_exit_bind;
          [first [ apply set_env_and_output_no_exit
                 | apply announce_all_no_exit
                 | by destruct (_ && _)
                 | done ]
          |intros ?]).
  done.
Qed.

Lemma announce_appends_nothing (py : runtime) (w : world) (a : args)
    client mastodon webhook fields i entry matrix :
  Forall (fun e => is_append e = false)
    (trace (announce py w a client mastodon webhook fields i entry matrix)).
Proof. unfold announce. repeat trace_step; done. Qed.

Lemma set_env_and_output_lines (w : world) (name value : string) :
  result (set_env_and_output w name value) = inr tt ->
  appended "GITHUB_ENV" (trace (set_env_and_output w name value))
  = [name +:+ "=" +:+ value +:+ NL]
  ∧ appended "GITHUB_OUTPUT" (trace (set_env_and_output w name value))
    = [name +:+ "=" +:+ value +:+ NL].
Proof.
  unfold set_env_and_output, append_to.
  destruct (os_environ w !! "GITHUB_ENV") as [p1|]; [|done].
  destruct (os_environ w !! "GITHUB_OUTPUT") as [p2|]; [|done].
  done.
Qed.

Lemma deliver_lines (py : runtime) (w : world) (a : args)
    client mastodon fields new :
  result (deliver py w a client mastodon fields new) = inr tt ->
  appended "GITHUB_ENV" (trace (deliver py w a client mastodon fields new))
  = output_lines (json_of_strings py fields)
      (json_of_matrix py (map (filter_serializable py) new)) "false"
  ∧ appended "GITHUB_OUTPUT"
      (trace (deliver py w a client mastodon fields new))
    = output_lines (json_of_strings py fields)
        (json_of_matrix py (map (filter_serializable py) new)) "false".
Proof.
  unfold deliver. rewrite !result_bind, !trace_bind, !appended_app.
  destruct (unset _ && deploy a); [done|]. simpl.
  destruct (result (announce_all _ _ _ _ _ _ _ _ _ _)) as [s|matrix] eqn:E;
    [done|].
  apply announce_all_result in E. simpl in E. subst matrix.
  rewrite !appended_app.
  rewrite !(appended_none _ (trace (announce_all _ _ _ _ _ _ _ _ _ _)))
    by (apply announce_all_local; intros; apply announce_appends_nothing).
  rewrite !result_bind, !trace_bind, !appended_app.
  destruct (result (set_env_and_output w "fields" _)) as [s|[]] eqn:E1;
    [done|].
  destruct (result (set_env_and_output w "matrix" _)) as [s|[]] eqn:E2;
    [done|].
  destruct (result (set_env_and_output w "empty_matrix" _)) as [s|[]] eqn:E3;
    [done|].
  intros _. rewrite !appended_app.
  destruct (set_env_and_output_lines w _ _ E1) as [-> ->].
  destruct (set_env_and_output_lines w _ _ E2) as [-> ->].
  destruct (set_env_and_output_lines w _ _ E3) as [-> ->].
  done.
Qed.

Lemma no_new_jobs_lines (w : world) :
  exit_status (result (no_new_jobs w)) = 0 ->
  appended "GITHUB_ENV" (trace (no_new_jobs w)) = output_lines "[]" "[]" "true"
  ∧ appended "GITHUB_OUTPUT" (trace (no_new_jobs w))
    = output_lines "[]" "[]" "true".
Proof.
  unfold no_new_jobs, set_env_and_output, append_to.
  destruct (os_environ w !! "GITHUB_ENV") as [p1|]; [|done].
  destruct (os_environ w !! "GITHUB_OUTPUT") as [p2|]; [|done].
  done.
Qed.

(** A run that ends with status 0 is the short circuit or has reached
    the end of [main]; either way each output file has three lines. *)
Lemma run_that_ends_well (py : runtime) (w : world) (a : args) :
  exit_status (result (main py w (Some a))) = 0 ->
  ∃ fa fb A B fields delta,
    loaded w a fa fb A B fields
    ∧ find_delta (unique a) (test a) A B = inr delta
    ∧ ((test a = false ∧ delta = []
        ∧ result (main py w (Some a)) = inl (SysExit 0)
        ∧ appended "GITHUB_ENV" (trace (main py w (Some a)))
          = output_lines "[]" "[]" "true"
        ∧ appended "GITHUB_OUTPUT" (trace (main py w (Some a)))
          = output_lines "[]" "[]" "true")
       ∨ ((test a = true ∨ delta ≠ [])
          ∧ result (main py w (Some a)) = inr tt
          ∧ appended "GITHUB_ENV" (trace (main py w (Some a)))
            = output_lines (json_of_strings py fields)
                (json_of_matrix py (map (filter_serializable py) delta))
                "false"
          ∧ appended "GITHUB_OUTPUT" (trace (main py w (Some a)))
            = output_lines (json_of_strings py fields)
                (json_of_matrix py (map (filter_serializable py) delta))
                "false")).
Proof.
  intros Hs.
  destruct (main_cases py w a)
    as [[_ Hs']|(fa & fb & A & B & fields & new & Hl & _ & Hd & Hmain)].
  { by rewrite Hs in Hs'. }
  exists fa, fb, A, B, fields, new. split; [done|]. split; [done|].
  rewrite Hmain in Hs |- *. rewrite result_bind in Hs |- *.
  rewrite trace_bind, !appended_app. simpl in Hs |- *.
  assert (∀ client mastodon,
            exit_status (result (deliver py w a client mastodon fields new)) = 0
            -> result (deliver py w a client mastodon fields new) = inr tt)
    as Hdeliver.
  { intros client mastodon H.
    pose proof (deliver_no_exit py w a client mastodon fields new) as Hno.
    destruct (result (deliver _ _ _ _ _ _ _)) as [[c| |]|[]] eqn:E;
      try done.
    exfalso. by apply (Hno c). }
  unfold after_diff in *. destruct (test a) eqn:Ht.
  - right. split; [by left|]. split; [by apply Hdeliver|].
    by apply deliver_lines, Hdeliver.
  - destruct new as [|entry new].
    + left. split; [done|]. split; [done|].
      split; [|by apply no_new_jobs_lines].
      revert Hs. unfold no_new_jobs, set_env_and_output, append_to.
      destruct (os_environ w !! "GITHUB_ENV") as [p1|]; [|done].
      by destruct (os_environ w !! "GITHUB_OUTPUT") as [p2|].
    + right. split; [by right|]. split; [by apply Hdeliver|].
      by apply deliver_lines, Hdeliver.
Qed.

(** X18: a run that reaches the end of [main] has appended the same three
    lines to the file of [GITHUB_ENV] and to the file of [GITHUB_OUTPUT],
    and no other: [fields] with the JSON list of the parsed keys,
    [matrix] with the JSON list of the dictionaries of the Delta, and
    [empty_matrix=false]. *)
Theorem lines_written_at_the_end (py : runtime) (w : world) (a : args) :
  result (main py w (Some a)) = inr tt ->
  ∃ fa fb A B fields delta,
    loaded w a fa fb A B fields
    ∧ find_delta (unique a) (test a) A B = inr delta
    ∧ appended "GITHUB_ENV" (trace (main py w (Some a)))
      = output_lines (json_of_strings py fields)
          (json_of_matrix py (map (filter_serializable py) delta)) "false"
    ∧ appended "GITHUB_OUTPUT" (trace (main py w (Some a)))
      = appended "GITHUB_ENV" (trace (main py w (Some a))).
Proof.
  intros Hres.
  destruct (run_that_ends_well py w a)
    as (fa & fb & A & B & fields & delta & Hl & Hd & Hcase);
    [by rewrite Hres|].
  exists fa, fb, A, B, fields, delta. split; [done|]. split; [done|].
  destruct Hcase as [(_ & _ & Hexit & _)|(_ & _ & Henv & Hout)].
  - by rewrite Hres in Hexit.
  - by rewrite Hout, Henv.
Qed.

Lemma lines_written_at_the_end_witness :
  let run :=
    main Sample.python (Sample.calm Sample.outputs)
      (Some (Sample.update "old.yaml" "new.yaml" false false false false)) in
  result run = inr tt
  ∧ appended "GITHUB_OUTPUT" (trace run) = appended "GITHUB_ENV" (trace run)
  ∧ List.length (appended "GITHUB_OUTPUT" (trace run)) = 3%nat.
Proof.
  intros run.
  assert (result run = inr tt) as Hres by (vm_compute; reflexivity).
  split; [exact Hres|].
  destruct (lines_written_at_the_end Sample.python _ _ Hres)
    as (fa & fb & A & B & fields & delta & _ & _ & Henv & Hout).
  split; [exact Hout|]. unfold run. rewrite Hout, Henv. reflexivity.
Defined.

Lemma json_of_matrix_not_empty (py : runtime) (d : dict string)
    (matrix : list (dict string)) :
  json_of_matrix py (d :: matrix) ≠ "[]".
Proof.
  unfold json_of_matrix. rewrite map_cons.
  destruct (map (json_of_dict py) matrix) as [|x l]; unfold json_of_dict;
    discriminate.
Qed.

(** X19: outside test mode, a run that ends with status 0 has written
    [empty_matrix=true] exactly when it has written [matrix=[]], to both
    files. *)
Theorem flag_is_right_outside_test_mode (py : runtime) (w : world)
    (a : args) :
  test a = false ->
  exit_status (result (main py w (Some a))) = 0 ->
  ∃ fields matrix empty_matrix,
    appended "GITHUB_ENV" (trace (main py w (Some a)))
    = output_lines fields matrix empty_matrix
    ∧ appended "GITHUB_OUTPUT" (trace (main py w (Some a)))
      = output_lines fields matrix empty_matrix
    ∧ (empty_matrix = "true" ∨ empty_matrix = "false")
    ∧ (empty_matrix = "true" ↔ matrix = "[]").
Proof.
  intros Ht Hs.
  destruct (run_that_ends_well py w a Hs)
    as (fa & fb & A & B & fields & delta & _ & _ & Hcase).
  destruct Hcase as [(_ & _ & _ & Henv & Hout)|(Hne & _ & Henv & Hout)].
  - exists "[]", "[]", "true". split; [exact Henv|]. split; [exact Hout|].
    split; [by left|]. done.
  - eexists _, _, "false". split; [exact Henv|]. split; [exact Hout|].
    split; [by right|]. split; [done|].
    destruct Hne as [Hne|Hne]; [congruence|].
    destruct delta as [|entry delta]; [done|]. intros Hempty.
    by apply json_of_matrix_not_empty in Hempty.
Qed.

Lemma flag_is_right_outside_test_mode_witness :
  let run :=
    main Sample.python (Sample.calm Sample.outputs)
      (Some (Sample.update "old.yaml" "old.yaml" false false false false)) in
  exit_status (result run) = 0
  ∧ ∃ fields matrix empty_matrix,
      appended "GITHUB_OUTPUT" (trace run)
      = output_lines fields matrix empty_matrix
      ∧ (empty_matrix = "true" ↔ matrix = "[]").
Proof.
  intros run.
  assert (exit_status (result run) = 0) as Hs by (vm_compute; reflexivity).
  split; [exact Hs|].
  destruct (flag_is_right_outside_test_mode Sample.python
              (Sample.calm Sample.outputs)
              (Sample.update "old.yaml" "old.yaml" false false false false)
              eq_refl Hs)
    as (f & m & e & _ & Hout & _ & Hiff).
  exists f, m, e. split; [exact Hout|exact Hiff].
Defined.

(** ** Failures of Twitter *)

Lemma same_outcome_refl {A : Type} (m : Run A) : same_outcome m m.
Proof. by split. Qed.

Lemma same_outcome_bind {A B : Type} (m1 m2 : Run A) (k1 k2 : A -> Run B) :
  same_outcome m1 m2 -> (∀ x, same_outcome (k1 x) (k2 x)) ->
  same_outcome (bind m1 k1) (bind m2 k2).
Proof.
  intros [Hr Ht] Hk. unfold same_outcome.
  assert (∀ t1 t2, other_effects (t1 ++ t2)
                   = other_effects t1 ++ other_effects t2) as Happ.
  { intros t1 t2. apply List.filter_app. }
  rewrite !result_bind, !trace_bind, !Happ, Ht, Hr.
  destruct (result m2) as [s|x]; [done|].
  destruct (Hk x) as [Hrx Htx]. by rewrite Hrx, Htx.
Qed.

Lemma announce_same_outcome (py : runtime) (w : world) (a : args)
    (answers : nat -> string -> option string)
    client mastodon webhook fields i entry matrix :
  same_outcome
    (announce py (with_tweets answers w) a client mastodon webhook fields
       i entry matrix)
    (announce py w a client mastodon webhook fields i entry matrix).
Proof.
  unfold same_outcome, announce, with_tweets. cbn [create_tweet
    mastodon_toot requests_post random_choice].
  set (choice := nth _ icons ""). clearbody choice.
  destruct (prepare_post py entry fields) as [e|post]; simpl; [done|].
  destruct (deploy_twitter a && bool_decide (is_Some client));
    destruct (deploy_mastodon a && bool_decide (is_Some mastodon));
    destruct (negb (deploy a) || test a);
    destruct webhook as [url0|];
    repeat match goal with
           | |- context [answers ?i ?m] => destruct (answers i m)
           | |- context [create_tweet ?w ?i ?m] => destruct (create_tweet w i m)
           | |- context [mastodon_toot ?w ?i ?m] => destruct (mastodon_toot w i m)
           | |- context [requests_post ?w ?i ?u ?d] =>
               destruct (requests_post w i u d) as [?|r0]
           | |- context [bool_decide (status_code ?r ∈ ?l)] =>
               destruct (bool_decide (status_code r ∈ l))
           end; simpl; done.
Qed.

Lemma announce_all_same_outcome (py : runtime) (w : world) (a : args)
    (answers : nat -> string -> option string)
    client mastodon webhook fields new :
  ∀ i matrix,
    same_outcome
      (announce_all py (with_tweets answers w) a client mastodon webhook
         fields i new matrix)
      (announce_all py w a client mastodon webhook fields i new matrix).
Proof.
  induction new as [|entry rest IH]; intros i matrix; simpl.
  - apply same_outcome_refl.
  - apply same_outcome_bind; [apply announce_same_outcome|]. intros m.
    apply IH.
Qed.

Lemma deliver_same_outcome (py : runtime) (w : world) (a : args)
    (answers : nat -> string -> option string) client mastodon fields new :
  same_outcome
    (deliver py (with_tweets answers w) a client mastodon fields new)
    (deliver py w a client mastodon fields new).
Proof.
  unfold deliver.
  apply same_outcome_bind; [apply same_outcome_refl|]. intros _.
  apply same_outcome_bind; [apply announce_all_same_outcome|]. intros m.
  apply same_outcome_refl.
Qed.

(** X20: the answers of Twitter change neither how a run ends nor what
    it does apart from printing: its file reads, its output lines and
    its calls to Mastodon and to the chat webhook are the same whether
    tweets fail or not. *)
Theorem tweets_do_not_change_the_run (py : runtime) (w : world)
    (argv : option args) (answers : nat -> string -> option string) :
  result (main py (with_tweets answers w) argv) = result (main py w argv)
  ∧ other_effects (trace (main py (with_tweets answers w) argv))
    = other_effects (trace (main py w argv)).
Proof.
  change (same_outcome (main py (with_tweets answers w) argv)
            (main py w argv)).
  destruct argv as [a|]; [|apply same_outcome_refl]. unfold main.
  repeat (apply same_outcome_bind; [apply same_outcome_refl|intros ?]).
  destruct (test a); [apply deliver_same_outcome|].
  match goal with
  | |- same_outcome (match ?new with [] => _ | _ :: _ => _ end) _ =>
      destruct new
  end; [apply same_outcome_refl|apply deliver_same_outcome].
Qed.

(** ** Test runs and the social channels *)

Lemma bind_ret_l {A B : Type} (x : A) (k : A -> Run B) :
  bind (ret x) k = k x.
Proof. unfold bind, ret. by destruct (k x). Qed.

Lemma announce_tweets (py : runtime) (w : world) (a : args)
    client mastodon webhook fields i entry matrix post :
  deploy_twitter a = true -> is_Some client ->
  prepare_post py entry fields = inr post ->
  let text := "New #RSEng Job! "
              +:+ nth (random_choice w i mod List.length icons)%nat icons ""
              +:+ NL +:+ post in
  EvTweet i text (create_tweet w i text)
  ∈ trace (announce py w a client mastodon webhook fields i entry matrix).
Proof.
  intros Ht Hc Hpost text. subst text. unfold announce.
  rewrite Ht, Hpost, (bool_decide_eq_true_2 _ Hc).
  set (choice := nth _ icons ""). clearbody choice. simpl.
  destruct (deploy_mastodon a && bool_decide (is_Some mastodon));
    destruct (negb (deploy a) || test a);
    destruct webhook as [url0|];
    repeat match goal with
           | |- context [create_tweet ?w ?i ?m] => destruct (create_tweet w i m)
           | |- context [mastodon_toot ?w ?i ?m] => destruct (mastodon_toot w i m)
           | |- context [requests_post ?w ?i ?u ?d] =>
               destruct (requests_post w i u d) as [?|r0]
           | |- context [bool_decide (status_code ?r ∈ ?l)] =>
               destruct (bool_decide (status_code r ∈ l))
           end; simpl;
    do 2 apply list_elem_of_further; apply list_elem_of_here.
Qed.

(** X21: test mode holds back the chat call only.  A test run with the
    Twitter flag, whose checks pass and whose list is not empty, still
    sends the tweet of its first entry. *)
Theorem test_run_still_tweets (py : runtime) (w : world) (a : args)
    (fa fb : string) (A B : snapshot) (fields : list string)
    (entry : record) (rest : list record) (post : string) :
  test a = true -> deploy_twitter a = true ->
  loaded w a fa fb A B fields -> credentials_set w a = true ->
  unset (os_environ w !! "SLACK_WEBHOOK") && deploy a = false ->
  find_delta (unique a) true A B = inr (entry :: rest) ->
  prepare_post py entry fields = inr post ->
  let text := "New #RSEng Job! "
              +:+ nth (random_choice w 0 mod List.length icons)%nat icons ""
              +:+ NL +:+ post in
  EvTweet 0 text (create_tweet w 0 text) ∈ trace (main py w (Some a))
  ∧ ∀ i url body answer,
      EvPost i url body answer ∉ trace (main py w (Some a)).
Proof.
  intros Ht Htw Hl Hc Hweb Hd Hpost text. split.
  - rewrite (main_ready py w a fa fb A B fields Hl Hc), Ht, Hd.
    rewrite trace_bind. apply elem_of_app. right. cbn [result snd].
    change (lift (inr (entry :: rest))) with (ret (entry :: rest)).
    rewrite bind_ret_l.
    unfold after_diff. rewrite Ht. unfold deliver. rewrite Hweb, bind_ret_l.
    rewrite trace_bind. apply elem_of_app. left.
    cbn [announce_all]. rewrite trace_bind. apply elem_of_app. left.
    apply (announce_tweets py w a); [done| |done].
    unfold twitter_of. rewrite Htw. eauto.
  - intros i url body answer Hin.
    assert (Forall (fun e => is_post e = false) (trace (main py w (Some a))))
      as Hall.
    { apply main_local; try done.
      intros. apply announce_without_post. by right. }
    rewrite Forall_forall in Hall. by specialize (Hall _ Hin).
Qed.

Lemma test_run_still_tweets_witness :
  let run :=
    main Sample.python (Sample.calm (Sample.outputs ++ Sample.credentials))
      (Some (Sample.update "old.yaml" "new.yaml" true true false true)) in
  EvTweet 0
    ("New #RSEng Job! " +:+ nth 0 icons "" +:+ NL +:+ "Name: Engineer" +:+ NL
     +:+ "http://a" +:+ NL) None
  ∈ trace run.
Proof.
  intros run.
  apply (test_run_still_tweets Sample.python
           (Sample.calm (Sample.outputs ++ Sample.credentials))
           (Sample.update "old.yaml" "new.yaml" true true false true)
           "old.yaml" "new.yaml" [Sample.engineer]
           [Sample.engineer; Sample.note; Sample.scientist; Sample.analyst]
           ["name"; "url"] Sample.engineer []);
    try reflexivity.
  unfold loaded. repeat split; reflexivity.
Defined.

(** ** Exits with a message *)

Lemma set_env_and_output_no_message (w : world) (name value message : string) :
  result (set_env_and_output w name value) ≠ inl (SysExitMessage message).
Proof.
  unfold set_env_and_output, append_to.
  destruct (os_environ w !! "GITHUB_ENV"); [|done].
  by destruct (os_environ w !! "GITHUB_OUTPUT").
Qed.

Lemma deliver_message_before_lines (py : runtime) (w : world) (a : args)
    client mastodon fields new (message : string) (var : string) :
  result (deliver py w a client mastodon fields new)
  = inl (SysExitMessage message) ->
  appended var (trace (deliver py w a client mastodon fields new)) = [].
Proof.
  unfold deliver. destruct (unset _ && deploy a); [done|].
  rewrite bind_ret_l, result_bind, trace_bind, appended_app.
  rewrite (appended_none var (trace (announce_all _ _ _ _ _ _ _ _ _ _)))
    by (apply announce_all_local; intros; apply announce_appends_nothing).
  destruct (result (announce_all _ _ _ _ _ _ _ _ _ _)) as [s|matrix];
    [done|].
  rewrite !result_bind.
  destruct (result (set_env_and_output w "fields" _)) as [s|[]] eqn:E1.
  { intros [= ->]. by apply set_env_and_output_no_message in E1. }
  destruct (result (set_env_and_output w "matrix" _)) as [s|[]] eqn:E2.
  { intros [= ->]. by apply set_env_and_output_no_message in E2. }
  destruct (result (set_env_and_output w "empty_matrix" _)) as [s|[]] eqn:E3.
  { intros [= ->]. by apply set_env_and_output_no_message in E3. }
  done.
Qed.

(** X22: when a run ends by [sys.exit] with a message (a file that does
    not exist, a missing credential or webhook, a post that failed), it
    has written no output line. *)
Theorem no_line_before_an_exit_message (py : runtime) (w : world)
    (a : args) (message var : string) :
  result (main py w (Some a)) = inl (SysExitMessage message) ->
  appended var (trace (main py w (Some a))) = [].
Proof.
  intros Hres.
  destruct (main_cases py w a)
    as [[Hr _]|(fa & fb & A & B & fields & new & _ & _ & _ & Hmain)].
  { apply appended_none. eapply Forall_impl; [exact Hr|].
    by intros e [f ->]. }
  rewrite Hmain in Hres |- *. rewrite result_bind in Hres.
  rewrite trace_bind, appended_app. cbn [result snd] in Hres |- *.
  unfold after_diff in *.
  assert (result (no_new_jobs w) ≠ inl (SysExitMessage message)) as Hshort.
  { unfold no_new_jobs, set_env_and_output, append_to.
    destruct (os_environ w !! "GITHUB_ENV"); [|done].
    by destruct (os_environ w !! "GITHUB_OUTPUT"). }
  destruct (test a);
    [by rewrite (deliver_message_before_lines _ _ _ _ _ _ _ _ _ Hres)|].
  destruct new; [done|].
  by rewrite (deliver_message_before_lines _ _ _ _ _ _ _ _ _ Hres).
Qed.

Lemma no_line_before_an_exit_message_witness :
  let run :=
    main Sample.python Sample.failing_chat
      (Some (Sample.update "old.yaml" "three.yaml" true false false false)) in
  result run
  = inl (SysExitMessage
           "Issue with making POST request: Internal Server Error, 500")
  ∧ appended "GITHUB_OUTPUT" (trace run) = [].
Proof.
  intros run.
  assert (result run
          = inl (SysExitMessage
                   "Issue with making POST request: Internal Server Error, 500"))
    as Hres by (vm_compute; reflexivity).
  split; [exact Hres|].
  exact (no_line_before_an_exit_message Sample.python Sample.failing_chat
           _ _ "GITHUB_OUTPUT" Hres).
Defined.

(** ** Sample failures *)

Lemma find_delta_raises_iff_unhashable_witness :
  all_hashable "url" [[("url", VList [VStr "http://a"; VStr "http://b"])]]
    && all_hashable "url" [Sample.engineer] = false
  ∧ find_delta "url" false
      [[("url", VList [VStr "http://a"; VStr "http://b"])]] [Sample.engineer]
    = inl TypeError.
Proof.
  split; [reflexivity|].
  apply (proj1 (find_delta_raises_iff_unhashable "url" false
                  [[("url", VList [VStr "http://a"; VStr "http://b"])]]
                  [Sample.engineer])).
  reflexivity.
Defined.

Lemma prepare_post_raises_iff_not_text_witness :
  dict_get "expires" Sample.analyst = Some (VDate 2024 1 31)
  ∧ prepare_post Sample.python Sample.analyst ["name"; "expires"; "url"]
    = inl TypeError.
Proof.
  split; [reflexivity|].
  apply (proj1 (prepare_post_raises_iff_not_text Sample.python Sample.analyst
                  ["name"; "expires"; "url"])).
  exists "expires", (VDate 2024 1 31).
  split; [apply list_elem_of_further, list_elem_of_here|].
  split; reflexivity.
Defined.

Lemma fields_with_a_date_are_left_out_witness :
  let entry : record :=
    [("name", VStr "Analyst");
     ("dates", VList [VStr "open"; VDict [("until", VDate 2024 1 31)]]);
     ("url", VStr "http://c")] in
  dict_get "dates" (filter_serializable Sample.python entry) = None
  ∧ dict_get "url" (filter_serializable Sample.python entry)
    = Some (Sample.encode_ascii "http://c").
Proof.
  intros entry. split; [|reflexivity].
  apply (fields_with_a_date_are_left_out Sample.python entry "dates"
           (VList [VStr "open"; VDict [("until", VDate 2024 1 31)]]));
    [|reflexivity..].
  unfold entry, dict_keys. simpl.
  repeat (apply NoDup_cons_2; [intros H; in_list H; discriminate|]).
  apply NoDup_nil_2.
Defined.
